(** * sota-extractor: the task database ([taskdb.py]) and the evaluation
      report ([eval_all.py])

    A shallow embedding of the Python sources.  Records loaded from JSON are
    values of type [json]; Python's dynamic operations on them ([in],
    subscripting, iteration, truthiness) are total functions into an error
    monad whose errors are the Python exceptions the sources can raise.
    Objects ([Link], [SotaRow], [Dataset], [Task]) are records; the registry
    [TaskDb.tasks] is an insertion-ordered association list that is passed
    explicitly. *)

From Stdlib Require Import List String Ascii ZArith QArith Bool Lia PrimFloat.
Import ListNotations.

Set Warnings "-register-all".

Open Scope string_scope.
Open Scope list_scope.

(** ** Values produced by [json.load] *)

Inductive json : Type :=
| JNull
| JBool (b : bool)
| JInt (n : Z)
| JFloat (f : float)
| JStr (s : string)
| JArr (l : list json)
| JObj (kvs : list (string * json)).

(** ** Exceptions and the error monad *)

Inductive exn : Type :=
| KeyError
| TypeError
| IndexError
| ZeroDivisionError.

Inductive result (A : Type) : Type :=
| Ok (a : A)
| Raise (e : exn).

Arguments Ok {A} a.
Arguments Raise {A} e.

Definition bind {A B : Type} (m : result A) (k : A -> result B) : result B :=
  match m with
  | Ok a => k a
  | Raise e => Raise e
  end.

Notation "x <- m ;; k" := (bind m (fun x => k))
  (at level 61, m at next level, right associativity).

(** ** Python operations on loaded values *)

(** [bool(v)]: what [if v:] tests. *)
Definition truthy (v : json) : bool :=
  match v with
  | JNull => false
  | JBool b => b
  | JInt n => negb (Z.eqb n 0)
  | JFloat f => negb (PrimFloat.eqb f PrimFloat.zero)
  | JStr s => negb (String.eqb s "")
  | JArr l => match l with [] => false | _ :: _ => true end
  | JObj kvs => match kvs with [] => false | _ :: _ => true end
  end.

(** Dictionary lookup; [json.load] leaves one binding per key. *)
Fixpoint assoc {V : Type} (k : string) (kvs : list (string * V)) : option V :=
  match kvs with
  | [] => None
  | (k', v) :: rest => if String.eqb k k' then Some v else assoc k rest
  end.

Definition has_key {V : Type} (k : string) (kvs : list (string * V)) : bool :=
  match assoc k kvs with
  | Some _ => true
  | None => false
  end.

(** [sub in s] on two strings. *)
Fixpoint contains (sub s : string) : bool :=
  String.prefix sub s
  || match s with
     | EmptyString => false
     | String _ s' => contains sub s'
     end.

Definition is_str (k : string) (v : json) : bool :=
  match v with
  | JStr s => String.eqb s k
  | _ => false
  end.

(** [k in v] for a string literal [k]: key membership on a dict, element
    membership on a list, substring test on a string, [TypeError] on the
    rest. *)
Definition py_in (k : string) (v : json) : result bool :=
  match v with
  | JObj kvs => Ok (has_key k kvs)
  | JArr l => Ok (existsb (is_str k) l)
  | JStr s => Ok (contains k s)
  | JNull | JBool _ | JInt _ | JFloat _ => Raise TypeError
  end.

(** [v[k]] for a string literal [k]. *)
Definition getitem (v : json) (k : string) : result json :=
  match v with
  | JObj kvs =>
      match assoc k kvs with
      | Some x => Ok x
      | None => Raise KeyError
      end
  | _ => Raise TypeError
  end.

Fixpoint chars (s : string) : list string :=
  match s with
  | EmptyString => []
  | String c s' => String c EmptyString :: chars s'
  end.

(** The items [for x in v] visits: the elements of a list, the keys of a
    dict, the characters of a string. *)
Definition py_iter (v : json) : result (list json) :=
  match v with
  | JArr l => Ok l
  | JObj kvs => Ok (map (fun kv => JStr (fst kv)) kvs)
  | JStr s => Ok (map JStr (chars s))
  | JNull | JBool _ | JInt _ | JFloat _ => Raise TypeError
  end.

(** A [for] loop whose body threads the state [S] and may raise. *)
Fixpoint for_each {A S : Type} (l : list A) (body : A -> S -> result S) (s : S)
  : result S :=
  match l with
  | [] => Ok s
  | x :: rest => s' <- body x s ;; for_each rest body s'
  end.

(** [v[k]] followed by the continuation [f]; [getitem] written so that the
    value handed to [f] is visibly a part of [v]. *)
Definition with_item {A : Type} (v : json) (k : string) (f : json -> result A)
  : result A :=
  match v with
  | JObj kvs =>
      (fix find (kvs : list (string * json)) : result A :=
         match kvs with
         | [] => Raise KeyError
         | (k', x) :: rest => if String.eqb k k' then f x else find rest
         end) kvs
  | _ => Raise TypeError
  end.

(** [for x in v: body]: list elements go to [on_item]; the strings that
    iterating a dict or a string yields go to [on_str]. *)
Definition for_in {S : Type} (v : json)
  (on_item : json -> S -> result S) (on_str : string -> S -> result S) (s : S)
  : result S :=
  match v with
  | JArr l =>
      (fix loop (l : list json) (s : S) : result S :=
         match l with
         | [] => Ok s
         | x :: rest => s' <- on_item x s ;; loop rest s'
         end) l s
  | JObj kvs => for_each (map fst kvs) on_str s
  | JStr str => for_each (chars str) on_str s
  | JNull | JBool _ | JInt _ | JFloat _ => Raise TypeError
  end.

(** [d[k] if k in d else default], the optional-field idiom of the
    constructors: [if k in d: self.f = d[k]]. *)
Definition get_or (d : json) (k : string) (default : json) : result json :=
  has <- py_in k d ;;
  if has then getitem d k else Ok default.

(** ** class Link *)

Module Link.

Record t : Type := mk { title : json; url : json }.

Definition __init__ (d : json) : result t :=
  title <- get_or d "title" (JStr "") ;;
  url <- get_or d "url" (JStr "") ;;
  Ok {| title := title; url := url |}.

Definition to_dict (self : t) : json :=
  JObj [("title", title self); ("url", url self)].

(** The loop [for x_d in v: if x_d: links.append(Link(x_d))]. *)
Definition append_links (v : json) (links : list t) : result (list t) :=
  items <- py_iter v ;;
  for_each items
    (fun link_d links =>
       if truthy link_d
       then l <- __init__ link_d ;; Ok (links ++ [l])
       else Ok links)
    links.

End Link.

(** ** class SotaRow *)

Module SotaRow.

Record t : Type := mk {
  model_name : json;
  paper_title : json;
  paper_url : json;
  paper_date : json;
  code_links : list Link.t;
  model_links : list Link.t;
  metrics : json
}.

Definition __init__ (d : json) : result t :=
  model_name <- getitem d "model_name" ;;
  paper_title <- get_or d "paper_title" (JStr "") ;;
  paper_url <- get_or d "paper_url" (JStr "") ;;
  paper_date <- get_or d "paper_date" JNull ;;
  has_code <- py_in "code_links" d ;;
  code_links <-
    (if has_code
     then v <- getitem d "code_links" ;; Link.append_links v []
     else Ok []) ;;
  has_model <- py_in "model_links" d ;;
  model_links <-
    (if has_model
     then v <- getitem d "model_links" ;; Link.append_links v []
     else Ok []) ;;
  metrics <- getitem d "metrics" ;;
  Ok {| model_name := model_name;
        paper_title := paper_title;
        paper_url := paper_url;
        paper_date := paper_date;
        code_links := code_links;
        model_links := model_links;
        metrics := metrics |}.

Definition to_dict (self : t) : json :=
  JObj [("model_name", model_name self);
        ("paper_title", paper_title self);
        ("paper_url", paper_url self);
        ("paper_date", paper_date self);
        ("code_links", JArr (map Link.to_dict (code_links self)));
        ("model_links", JArr (map Link.to_dict (model_links self)));
        ("metrics", metrics self)].

(** The loop [for sota_row_d in v: if sota_row_d: rows.append(SotaRow(...))]. *)
Definition append_rows (v : json) (rows : list t)
  : result (list t) :=
  items <- py_iter v ;;
  for_each items
    (fun sota_row_d rows =>
       if truthy sota_row_d
       then r <- __init__ sota_row_d ;; Ok (rows ++ [r])
       else Ok rows)
    rows.

End SotaRow.

(** [o[k] = v] on a dict: the binding is replaced where it stands, or added
    last. *)
Fixpoint setitem {V : Type} (k : string) (v : V) (o : list (string * V))
  : list (string * V) :=
  match o with
  | [] => [(k, v)]
  | (k', v') :: rest =>
      if String.eqb k k' then (k', v) :: rest else (k', v') :: setitem k v rest
  end.

(** ** class Dataset *)

Module Dataset.

(** [parent] is the back-reference to the owning dataset.  The sources only
    test it for presence, so it is kept as the owner's name. *)
Inductive t : Type := mk {
  dataset : json;
  description : json;
  parent : option json;
  sota_metrics : json;
  sota_rows : list SotaRow.t;
  subdatasets : list t;
  dataset_links : list Link.t;
  dataset_citations : list Link.t
}.

Fixpoint __init__ (d : json) (parent : option json) : result t :=
  has_sub <- py_in "subdataset" d ;;
  dataset <- (if has_sub then getitem d "subdataset" else getitem d "dataset") ;;
  description <- get_or d "description" (JStr "") ;;
  has_sota <- py_in "sota" d ;;
  sota <-
    (if has_sota
     then
       sota_d <- getitem d "sota" ;;
       sota_metrics <- get_or sota_d "metrics" (JArr []) ;;
       has_rows <- py_in "rows" sota_d ;;
       sota_rows <-
         (if has_rows
          then rows <- getitem sota_d "rows" ;; SotaRow.append_rows rows []
          else Ok []) ;;
       Ok (sota_metrics, sota_rows)
     else Ok (JArr [], [])) ;;
  has_subdatasets <- py_in "subdatasets" d ;;
  subdatasets <-
    (if has_subdatasets
     then
       with_item d "subdatasets" (fun v =>
         for_in v
           (fun subd_d subdatasets =>
              if truthy subd_d
              then sd <- __init__ subd_d (Some dataset) ;;
                   Ok (subdatasets ++ [sd])
              else Ok subdatasets)
           (fun key subdatasets =>
              if truthy (JStr key) then Raise TypeError else Ok subdatasets)
           [])
     else Ok []) ;;
  has_links <- py_in "dataset_links" d ;;
  dataset_links <-
    (if has_links
     then v <- getitem d "dataset_links" ;; Link.append_links v []
     else Ok []) ;;
  has_citations <- py_in "dataset_citations" d ;;
  dataset_links <-
    (if has_citations
     then v <- getitem d "dataset_citations" ;; Link.append_links v dataset_links
     else Ok dataset_links) ;;
  Ok {| dataset := dataset;
        description := description;
        parent := parent;
        sota_metrics := fst sota;
        sota_rows := snd sota;
        subdatasets := subdatasets;
        dataset_links := dataset_links;
        dataset_citations := [] |}.

(** The body of [__init__] read off the source line by line, over [getitem],
    [py_iter] and [for_each], with the recursive call as the parameter
    [Dataset]; [__init__] is shown below to satisfy it. *)
Definition init_body (Dataset : json -> option json -> result t)
  (d : json) (parent : option json) : result t :=
  has_sub <- py_in "subdataset" d ;;
  dataset <- (if has_sub then getitem d "subdataset" else getitem d "dataset") ;;
  description <- get_or d "description" (JStr "") ;;
  has_sota <- py_in "sota" d ;;
  sota <-
    (if has_sota
     then
       sota_d <- getitem d "sota" ;;
       sota_metrics <- get_or sota_d "metrics" (JArr []) ;;
       has_rows <- py_in "rows" sota_d ;;
       sota_rows <-
         (if has_rows
          then rows <- getitem sota_d "rows" ;; SotaRow.append_rows rows []
          else Ok []) ;;
       Ok (sota_metrics, sota_rows)
     else Ok (JArr [], [])) ;;
  has_subdatasets <- py_in "subdatasets" d ;;
  subdatasets <-
    (if has_subdatasets
     then
       v <- getitem d "subdatasets" ;;
       items <- py_iter v ;;
       for_each items
         (fun subd_d subdatasets =>
            if truthy subd_d
            then sd <- Dataset subd_d (Some dataset) ;; Ok (subdatasets ++ [sd])
            else Ok subdatasets)
         []
     else Ok []) ;;
  has_links <- py_in "dataset_links" d ;;
  dataset_links <-
    (if has_links
     then v <- getitem d "dataset_links" ;; Link.append_links v []
     else Ok []) ;;
  has_citations <- py_in "dataset_citations" d ;;
  dataset_links <-
    (if has_citations
     then v <- getitem d "dataset_citations" ;; Link.append_links v dataset_links
     else Ok dataset_links) ;;
  Ok {| dataset := dataset;
        description := description;
        parent := parent;
        sota_metrics := fst sota;
        sota_rows := snd sota;
        subdatasets := subdatasets;
        dataset_links := dataset_links;
        dataset_citations := [] |}.

Fixpoint to_dict (self : t) : json :=
  let o := [] in
  let o :=
    match parent self with
    | Some _ => setitem "subdataset" (dataset self) o
    | None => setitem "dataset" (dataset self) o
    end in
  let o := setitem "description" (description self) o in
  let o :=
    if truthy (sota_metrics self)
    then setitem "sota"
           (JObj [("metrics", sota_metrics self);
                  ("rows", JArr (map SotaRow.to_dict (sota_rows self)))]) o
    else o in
  let o :=
    match subdatasets self with
    | [] => o
    | _ :: _ => setitem "subdatasets" (JArr (map to_dict (subdatasets self))) o
    end in
  let o :=
    setitem "dataset_links" (JArr (map Link.to_dict (dataset_links self))) o in
  let o :=
    setitem "dataset_citations"
      (JArr (map Link.to_dict (dataset_citations self))) o in
  JObj o.

(** The loop [for dataset_d in v: if dataset_d: datasets.append(Dataset(...))]
    of [Task.__init__]. *)
Definition append_datasets (v : json) (datasets : list t) : result (list t) :=
  items <- py_iter v ;;
  for_each items
    (fun dataset_d datasets =>
       if truthy dataset_d
       then ds <- __init__ dataset_d None ;; Ok (datasets ++ [ds])
       else Ok datasets)
    datasets.

End Dataset.

(** ** class Task *)

Module Task.

(** [parent] is the back-reference to the owning task, kept as the owner's
    [task] name (the one attribute read through it, in [eval_all.py]). *)
Inductive t : Type := mk {
  task : json;
  description : json;
  parent : option json;
  categories : json;
  datasets : list Dataset.t;
  subtasks : list t;
  synonyms : list string;
  source_link : option Link.t
}.

Fixpoint __init__ (d : json) (parent : option json) : result t :=
  task <- getitem d "task" ;;
  description <- get_or d "description" (JStr "") ;;
  categories <- get_or d "categories" (JArr []) ;;
  has_datasets <- py_in "datasets" d ;;
  datasets <-
    (if has_datasets
     then v <- getitem d "datasets" ;; Dataset.append_datasets v []
     else Ok []) ;;
  has_subtasks <- py_in "subtasks" d ;;
  subtasks <-
    (if has_subtasks
     then
       with_item d "subtasks" (fun v =>
         for_in v
           (fun subt_d subtasks =>
              if truthy subt_d
              then st <- __init__ subt_d (Some task) ;; Ok (subtasks ++ [st])
              else Ok subtasks)
           (fun key subtasks =>
              if truthy (JStr key) then Raise TypeError else Ok subtasks)
           [])
     else Ok []) ;;
  has_source_link <- py_in "source_link" d ;;
  source_link <-
    (if has_source_link
     then v <- getitem d "source_link" ;; l <- Link.__init__ v ;; Ok (Some l)
     else Ok None) ;;
  Ok {| task := task;
        description := description;
        parent := parent;
        categories := categories;
        datasets := datasets;
        subtasks := subtasks;
        synonyms := [];
        source_link := source_link |}.

(** The body of [__init__] read off the source line by line, with the
    recursive call as the parameter [Task]. *)
Definition init_body (Task : json -> option json -> result t)
  (d : json) (parent : option json) : result t :=
  task <- getitem d "task" ;;
  description <- get_or d "description" (JStr "") ;;
  categories <- get_or d "categories" (JArr []) ;;
  has_datasets <- py_in "datasets" d ;;
  datasets <-
    (if has_datasets
     then v <- getitem d "datasets" ;; Dataset.append_datasets v []
     else Ok []) ;;
  has_subtasks <- py_in "subtasks" d ;;
  subtasks <-
    (if has_subtasks
     then
       v <- getitem d "subtasks" ;;
       items <- py_iter v ;;
       for_each items
         (fun subt_d subtasks =>
            if truthy subt_d
            then st <- Task subt_d (Some task) ;; Ok (subtasks ++ [st])
            else Ok subtasks)
         []
     else Ok []) ;;
  has_source_link <- py_in "source_link" d ;;
  source_link <-
    (if has_source_link
     then v <- getitem d "source_link" ;; l <- Link.__init__ v ;; Ok (Some l)
     else Ok None) ;;
  Ok {| task := task;
        description := description;
        parent := parent;
        categories := categories;
        datasets := datasets;
        subtasks := subtasks;
        synonyms := [];
        source_link := source_link |}.

Fixpoint to_dict (self : t) : json :=
  JObj [("task", task self);
        ("description", description self);
        ("categories", categories self);
        ("datasets", JArr (map Dataset.to_dict (datasets self)));
        ("subtasks", JArr (map to_dict (subtasks self)));
        ("synonyms", JArr (map JStr (synonyms self)));
        ("source_link",
         match source_link self with
         | Some l => Link.to_dict l
         | None => JNull
         end)].

(** [self.synonyms.append(syn)]. *)
Definition append_synonym (syn : string) (self : t) : t :=
  {| task := task self;
     description := description self;
     parent := parent self;
     categories := categories self;
     datasets := datasets self;
     subtasks := subtasks self;
     synonyms := synonyms self ++ [syn];
     source_link := source_link self |}.

Definition set_subtasks (l : list t) (self : t) : t :=
  {| task := task self;
     description := description self;
     parent := parent self;
     categories := categories self;
     datasets := datasets self;
     subtasks := l;
     synonyms := synonyms self;
     source_link := source_link self |}.

End Task.

(** ** Module-level functions of [taskdb.py] *)

(** [bool(l)] for a list attribute. *)
Definition list_truthy {A : Type} (l : list A) : bool :=
  match l with
  | [] => false
  | _ :: _ => true
  end.

(** The flag computed by the loops over [task.datasets] and [d.subdatasets]:
    one step of the outer loop. *)
Definition check_dataset (add : bool) (d : Dataset.t) : bool :=
  let add := if list_truthy (Dataset.sota_rows d) then true else add in
  fold_left
    (fun add sd => if list_truthy (Dataset.sota_rows sd) then true else add)
    (Dataset.subdatasets d) add.

Fixpoint find_sota_tasks (task : Task.t) (out : list Task.t) : list Task.t :=
  let add := false in
  let add := fold_left check_dataset (Task.datasets task) add in
  let out := if add then out ++ [task] else out in
  fold_left (fun out subtask => find_sota_tasks subtask out)
    (Task.subtasks task) out.

Fixpoint find_sota_datasets (task : Task.t) (out : list Dataset.t)
  : list Dataset.t :=
  let add := false in
  let '(add, out) :=
    fold_left
      (fun '(add, out) d =>
         let add := check_dataset add d in
         let out := if add then out ++ [d] else out in
         (add, out))
      (Task.datasets task) (add, out) in
  fold_left (fun out subtask => find_sota_datasets subtask out)
    (Task.subtasks task) out.

(** ** class TaskDb *)

Module TaskDb.

(** The class attribute [tasks]: a dict from name to top-level task, in
    insertion order. *)
Definition registry : Type := list (string * Task.t).

Definition values (tasks : registry) : list Task.t := map snd tasks.

(** [for subtask in t.subtasks: if subtask.task == name: return subtask]. *)
Fixpoint scan_subtasks (name : string) (subtasks : list Task.t)
  : option Task.t :=
  match subtasks with
  | [] => None
  | subtask :: rest =>
      if is_str name (Task.task subtask) then Some subtask
      else scan_subtasks name rest
  end.

(** [for t in TaskDb.tasks.values(): ...], left on the first hit. *)
Fixpoint scan_tasks (name : string) (ts : list Task.t) : option Task.t :=
  match ts with
  | [] => None
  | t :: rest =>
      match scan_subtasks name (Task.subtasks t) with
      | Some subtask => Some subtask
      | None => scan_tasks name rest
      end
  end.

Definition get_task (name : string) (tasks : registry) : option Task.t :=
  if has_key name tasks then assoc name tasks
  else scan_tasks name (values tasks).

Definition add_task (name : string) (task : Task.t) (tasks : registry)
  : registry :=
  setitem name task tasks.

(** [row[i]]. *)
Definition index {A : Type} (row : list A) (i : nat) : result A :=
  match nth_error row i with
  | Some x => Ok x
  | None => Raise IndexError
  end.

(** In-place mutation of the object [get_task name] returns: the registry
    with [f] applied at the place [get_task] finds. *)
Fixpoint update_key (name : string) (f : Task.t -> Task.t) (tasks : registry)
  : registry :=
  match tasks with
  | [] => []
  | (k, t) :: rest =>
      if String.eqb name k then (k, f t) :: rest
      else (k, t) :: update_key name f rest
  end.

Fixpoint update_subtask (name : string) (f : Task.t -> Task.t)
  (subtasks : list Task.t) : list Task.t :=
  match subtasks with
  | [] => []
  | subtask :: rest =>
      if is_str name (Task.task subtask) then f subtask :: rest
      else subtask :: update_subtask name f rest
  end.

Fixpoint update_scan (name : string) (f : Task.t -> Task.t) (tasks : registry)
  : registry :=
  match tasks with
  | [] => []
  | (k, t) :: rest =>
      match scan_subtasks name (Task.subtasks t) with
      | Some _ =>
          (k, Task.set_subtasks (update_subtask name f (Task.subtasks t)) t)
          :: rest
      | None => (k, t) :: update_scan name f rest
      end
  end.

Definition update_task (name : string) (f : Task.t -> Task.t)
  (tasks : registry) : registry :=
  if has_key name tasks then update_key name f tasks
  else update_scan name f tasks.

(** The body of [for row in reader]. *)
Definition load_row (row : list string) (tasks : registry) : result registry :=
  name <- index row 0 ;;
  match get_task name tasks with
  | Some _ =>
      synonym <- index row 1 ;;
      Ok (update_task name (Task.append_synonym synonym) tasks)
  | None => Ok tasks
  end.

(** [csv_files] holds, for each file, the rows [csv.reader] yields. *)
Definition load_synonyms (csv_files : list (list (list string)))
  (tasks : registry) : result registry :=
  for_each csv_files (fun reader tasks => for_each reader load_row tasks) tasks.

Definition tasks_with_sota (tasks : registry) : list Task.t :=
  let sota_tasks := [] in
  fold_left (fun sota_tasks task => find_sota_tasks task sota_tasks)
    (values tasks) sota_tasks.

Definition datasets_with_sota (tasks : registry) : list Dataset.t :=
  let sota_datasets := [] in
  fold_left (fun sota_datasets task => find_sota_datasets task sota_datasets)
    (values tasks) sota_datasets.

Definition export (tasks : registry) : list json :=
  map Task.to_dict (values tasks).

End TaskDb.

(** ** [eval_all.py]: the precision and recall of one task *)

Module EvalAll.

(** [a / b] on two ints. The quotient is kept exact; it is zero exactly when
    the float Python computes is. *)
Definition truediv (a b : Z) : result Q :=
  if Z.eqb b 0 then Raise ZeroDivisionError
  else Ok (Qdiv (inject_Z a) (inject_Z b)).

Definition len {A : Type} (s : list A) : Z := Z.of_nat (List.length s).

(** Lines 18 to 23, on the three sets [eval_task] returns. *)
Definition precision_recall {A : Type} (tp fn fp : list A) : result (Q * Q) :=
  let prec := 0%Q in
  let recal := 0%Q in
  prec <-
    (if negb (Z.eqb (len tp + len fp) 0)%Z
     then truediv (len tp) (len tp + len fp)%Z
     else Ok prec) ;;
  guard <- truediv (len tp) (len tp + len fn)%Z ;;
  recal <-
    (if negb (Qeq_bool guard 0)
     then truediv (len tp) (len tp + len fn)%Z
     else Ok recal) ;;
  Ok (prec, recal).

End EvalAll.

(** ** The queries as the specification words them *)

(** The per-dataset check: the dataset's own rows, or the rows of one of its
    direct subdatasets, are non-empty. *)
Definition spec_dataset_has_sota (d : Dataset.t) : bool :=
  list_truthy (Dataset.sota_rows d)
  || existsb (fun sd => list_truthy (Dataset.sota_rows sd))
       (Dataset.subdatasets d).

(** A task qualifies when one of the datasets it owns directly passes the
    per-dataset check. *)
Definition spec_task_has_sota (t : Task.t) : bool :=
  existsb spec_dataset_has_sota (Task.datasets t).

(** A task, then its subtasks' trees from left to right. *)
Fixpoint spec_preorder (t : Task.t) : list Task.t :=
  t :: flat_map spec_preorder (Task.subtasks t).

Definition spec_tasks_with_sota (tasks : TaskDb.registry) : list Task.t :=
  filter spec_task_has_sota (flat_map spec_preorder (TaskDb.values tasks)).

(** The top-level task of that name, else the first direct subtask of a
    top-level task that carries the name. *)
Definition spec_get_task (name : string) (tasks : TaskDb.registry)
  : option Task.t :=
  match assoc name tasks with
  | Some t => Some t
  | None =>
      find (fun subtask => is_str name (Task.task subtask))
        (flat_map Task.subtasks (TaskDb.values tasks))
  end.

(** The datasets of a task's list from the first one that passes the
    per-dataset check onwards. *)
Fixpoint from_first_sota (ds : list Dataset.t) : list Dataset.t :=
  match ds with
  | [] => []
  | d :: rest =>
      if spec_dataset_has_sota d then d :: rest else from_first_sota rest
  end.

(** A lookup returned a task rather than none. *)
Definition found (o : option Task.t) : bool :=
  match o with
  | Some _ => true
  | None => false
  end.

(** [get_task name] finds a task. *)
Definition resolvable (name : string) (tasks : TaskDb.registry) : bool :=
  found (TaskDb.get_task name tasks).

(** ** Notions used to state the properties *)

(** [links] are the links built, in order, from the truthy ones among
    [entries]. *)
Definition links_of (entries : list json) (links : list Link.t) : Prop :=
  Forall2 (fun e l => Link.__init__ e = Ok l) (filter truthy entries) links.

(** ** Sample records *)

Module Sample.

(** [{"task": "Parsing", "source_link": {"title": "Papers"}}] *)
Definition task_with_partial_link : json :=
  JObj [("task", JStr "Parsing");
        ("source_link", JObj [("title", JStr "Papers")])].

(** [{"dataset": "PTB", "dataset_links": [{"url": "u"}],
      "dataset_citations": [{}, {"title": "Marcus 1993"}]}] *)
Definition dataset_with_citations : json :=
  JObj [("dataset", JStr "PTB");
        ("dataset_links", JArr [JObj [("url", JStr "u")]]);
        ("dataset_citations",
         JArr [JObj []; JObj [("title", JStr "Marcus 1993")]])].

(** [{"dataset": "PTB",
      "sota": {"rows": [{"model_name": "BERT", "metrics": {"F1": "93.2"}}]}}]:
    rows, but no declared metrics. *)
Definition dataset_without_metrics : json :=
  JObj [("dataset", JStr "PTB");
        ("sota",
         JObj [("rows",
                JArr [JObj [("model_name", JStr "BERT");
                            ("metrics", JObj [("F1", JStr "93.2")])]])])].

(** A task with a [source_link], one dataset with declared metrics and one
    subtask, itself with a [source_link]. *)
Definition task_with_links : json :=
  JObj [("task", JStr "Parsing");
        ("source_link", JObj [("title", JStr "NLP-progress"); ("url", JStr "u")]);
        ("datasets",
         JArr [JObj [("dataset", JStr "PTB");
                     ("sota",
                      JObj [("metrics", JArr [JStr "F1"]);
                            ("rows",
                             JArr [JObj [("model_name", JStr "BERT");
                                         ("metrics",
                                          JObj [("F1", JStr "93.2")])]])]);
                     ("subdatasets",
                      JArr [JObj [("subdataset", JStr "WSJ")]])]]);
        ("subtasks",
         JArr [JObj [("task", JStr "Constituency parsing");
                     ("source_link", JObj [("url", JStr "v")])]])].

End Sample.

Module Scenario.

Definition sota_dataset (name : string) : json :=
  JObj [("dataset", JStr name);
        ("sota",
         JObj [("metrics", JArr [JStr "F1"]);
               ("rows",
                JArr [JObj [("model_name", JStr "BERT");
                            ("metrics", JObj [("F1", JStr "93.2")])]])])].

(** Task A: no datasets. *)
Definition record_A : json := JObj [("task", JStr "A")].

(** Task B: one dataset holding one row. *)
Definition record_B : json :=
  JObj [("task", JStr "B"); ("datasets", JArr [sota_dataset "b1"])].

(** Task D, the subtask of C: one dataset holding one row. *)
Definition record_D : json :=
  JObj [("task", JStr "D"); ("datasets", JArr [sota_dataset "d1"])].

(** Task C: the subtask D and nothing else. *)
Definition record_C : json :=
  JObj [("task", JStr "C"); ("subtasks", JArr [record_D])].

(** Task T: a dataset holding one row, then a dataset with no [sota]. *)
Definition record_T : json :=
  JObj [("task", JStr "T");
        ("datasets",
         JArr [sota_dataset "t1"; JObj [("dataset", JStr "t2")]])].

(** The task [Task({"task": name})] builds. *)
Definition leaf (name : string) : Task.t :=
  {| Task.task := JStr name;
     Task.description := JStr "";
     Task.parent := None;
     Task.categories := JArr [];
     Task.datasets := [];
     Task.subtasks := [];
     Task.synonyms := [];
     Task.source_link := None |}.

(** Task Deep: its only rows sit in a subdataset of a subdataset. *)
Definition record_Deep : json :=
  JObj [("task", JStr "Deep");
        ("datasets",
         JArr [JObj [("dataset", JStr "a");
                     ("subdatasets",
                      JArr [JObj [("subdataset", JStr "b");
                                  ("subdatasets",
                                   JArr [sota_dataset "c"])]])]])].

(** Task E: subtask F, whose own subtask is G. *)
Definition record_E : json :=
  JObj [("task", JStr "E");
        ("subtasks",
         JArr [JObj [("task", JStr "F");
                     ("subtasks", JArr [JObj [("task", JStr "G")]])]])].

End Scenario.

(** The link of a record: its [title] and [url], the empty string for an
    absent one. *)
Definition Link_of_record (kvs : list (string * json)) : Link.t :=
  {| Link.title := match assoc "title" kvs with Some v => v | None => JStr "" end;
     Link.url := match assoc "url" kvs with Some v => v | None => JStr "" end |}.

(** ** What reloading a serialized object yields *)

(** The dataset [Dataset(ds.to_dict(), parent)] builds: the [sota] block is
    kept only under truthy metrics, citations are merged into the links, and
    subdatasets are reloaded under this dataset's name. *)
Fixpoint Dataset_reloaded (parent : option json) (ds : Dataset.t) : Dataset.t :=
  {| Dataset.dataset := Dataset.dataset ds;
     Dataset.description := Dataset.description ds;
     Dataset.parent := parent;
     Dataset.sota_metrics :=
       if truthy (Dataset.sota_metrics ds)
       then Dataset.sota_metrics ds else JArr [];
     Dataset.sota_rows :=
       if truthy (Dataset.sota_metrics ds) then Dataset.sota_rows ds else [];
     Dataset.subdatasets :=
       map (Dataset_reloaded (Some (Dataset.dataset ds)))
         (Dataset.subdatasets ds);
     Dataset.dataset_links :=
       Dataset.dataset_links ds ++ Dataset.dataset_citations ds;
     Dataset.dataset_citations := [] |}.

(** A dataset as [Dataset.__init__] leaves it under [parent]: no stored
    citations, and every subdataset, at every depth, refers to its owner. *)
Inductive Dataset_linked : option json -> Dataset.t -> Prop :=
| Dataset_linked_intro (parent : option json) (ds : Dataset.t) :
    Dataset.parent ds = parent ->
    Dataset.dataset_citations ds = [] ->
    Forall (Dataset_linked (Some (Dataset.dataset ds))) (Dataset.subdatasets ds) ->
    Dataset_linked parent ds.


(** Every task of the tree has a [source_link]. *)
Fixpoint Task_has_links (t : Task.t) : bool :=
  match Task.source_link t with
  | Some _ => forallb Task_has_links (Task.subtasks t)
  | None => false
  end.

(** The task [Task(t.to_dict(), parent)] builds when it builds one. *)
Fixpoint Task_reloaded (parent : option json) (t : Task.t) : Task.t :=
  {| Task.task := Task.task t;
     Task.description := Task.description t;
     Task.parent := parent;
     Task.categories := Task.categories t;
     Task.datasets := map (Dataset_reloaded None) (Task.datasets t);
     Task.subtasks := map (Task_reloaded (Some (Task.task t))) (Task.subtasks t);
     Task.synonyms := [];
     Task.source_link := Task.source_link t |}.

(** A task as [Task.__init__] leaves it under [parent]. *)
Inductive Task_linked : option json -> Task.t -> Prop :=
| Task_linked_intro (parent : option json) (t : Task.t) :
    Task.parent t = parent ->
    Task.synonyms t = [] ->
    Forall (Dataset_linked None) (Task.datasets t) ->
    Forall (Task_linked (Some (Task.task t))) (Task.subtasks t) ->
    Task_linked parent t.



(** ** Notions used to state what [load_synonyms] does *)


(** A task tree with every synonym list emptied. *)
Fixpoint without_synonyms (t : Task.t) : Task.t :=
  {| Task.task := Task.task t;
     Task.description := Task.description t;
     Task.parent := Task.parent t;
     Task.categories := Task.categories t;
     Task.datasets := Task.datasets t;
     Task.subtasks := map without_synonyms (Task.subtasks t);
     Task.synonyms := [];
     Task.source_link := Task.source_link t |}.


(** * Properties *)

(** ** The recursive constructors satisfy their bodies *)

Lemma bind_ext {A B : Type} (m : result A) (f g : A -> result B) :
  (forall x, f x = g x) -> bind m f = bind m g.
Proof.
  intros E. destruct m; simpl; [apply E|reflexivity].
Qed.

Lemma bind_Ok {A B : Type} (m : result A) (k : A -> result B) (b : B) :
  bind m k = Ok b -> exists a, m = Ok a /\ k a = Ok b.
Proof.
  destruct m as [a|e]; simpl; intros H; [exists a; auto|discriminate].
Qed.

(** Splits a hypothesis [x <- m ;; k = Ok b] into [m = Ok a] and
    [k a = Ok b]. *)
Ltac inv_bind H a Ha :=
  apply bind_Ok in H; destruct H as (a & Ha & H).

Lemma with_item_getitem {A : Type} (v : json) (k : string)
  (f : json -> result A) :
  with_item v k f = x <- getitem v k ;; f x.
Proof.
  destruct v as [| | | | |l|kvs]; try reflexivity.
  simpl. induction kvs as [|[k' x] rest IH]; simpl; [reflexivity|].
  destruct (String.eqb k k'); [reflexivity|].
  rewrite IH. destruct (assoc k rest); reflexivity.
Qed.

Lemma for_each_map {A B S : Type} (g : A -> B) (body : B -> S -> result S)
  (l : list A) (s : S) :
  for_each (map g l) body s = for_each l (fun x => body (g x)) s.
Proof.
  revert s. induction l as [|x rest IH]; intros s; simpl; [reflexivity|].
  destruct (body (g x) s); simpl; [apply IH|reflexivity].
Qed.

Lemma for_each_ext {A S : Type} (body body' : A -> S -> result S)
  (l : list A) (s : S) :
  (forall x s, body x s = body' x s) ->
  for_each l body s = for_each l body' s.
Proof.
  intros E. revert s. induction l as [|x rest IH]; intros s; simpl;
    [reflexivity|].
  rewrite E. destruct (body' x s); simpl; [apply IH|reflexivity].
Qed.

Lemma for_in_py_iter {S : Type} (v : json)
  (on_item : json -> S -> result S) (on_str : string -> S -> result S) (s : S) :
  (forall key s, on_str key s = on_item (JStr key) s) ->
  for_in v on_item on_str s = items <- py_iter v ;; for_each items on_item s.
Proof.
  intros E. destruct v as [| | | |str|l|kvs]; simpl; try reflexivity.
  - rewrite for_each_map. apply for_each_ext, E.
  - revert s. induction l as [|x rest IH]; intros s; [reflexivity|].
    simpl. destruct (on_item x s); simpl; [apply IH|reflexivity].
  - rewrite (for_each_map (fun kv => JStr (fst kv))), for_each_map.
    apply for_each_ext. intros x s'. apply E.
Qed.

(** [Dataset(s)] on a string raises [TypeError]: a string cannot be
    subscripted by a key. *)
Lemma Dataset_init_str (s : string) (parent : option json) :
  Dataset.__init__ (JStr s) parent = Raise TypeError.
Proof.
  simpl. destruct (contains "subdataset" s); reflexivity.
Qed.

Lemma Dataset_init_unfold (d : json) (parent : option json) :
  Dataset.__init__ d parent = Dataset.init_body Dataset.__init__ d parent.
Proof.
  assert (L : forall v name acc,
    for_in v
      (fun subd_d subdatasets =>
         if truthy subd_d
         then sd <- Dataset.__init__ subd_d (Some name) ;;
              Ok (subdatasets ++ [sd])
         else Ok subdatasets)
      (fun key subdatasets =>
         if truthy (JStr key) then Raise TypeError else Ok subdatasets) acc
    = items <- py_iter v ;;
      for_each items
        (fun subd_d subdatasets =>
           if truthy subd_d
           then sd <- Dataset.__init__ subd_d (Some name) ;;
                Ok (subdatasets ++ [sd])
           else Ok subdatasets) acc).
  { intros v name acc. apply for_in_py_iter. intros key s.
    rewrite Dataset_init_str. destruct (truthy (JStr key)); reflexivity. }
  destruct d; try reflexivity.
  unfold Dataset.init_body; cbn [Dataset.__init__].
  do 5 (apply bind_ext; intros ?).
  apply bind_ext; intros has_subdatasets.
  f_equal.
  destruct has_subdatasets; [|reflexivity].
  rewrite with_item_getitem. apply bind_ext; intros v. apply L.
Qed.

(** [Task(s)] on a string raises [TypeError]. *)
Lemma Task_init_str (s : string) (parent : option json) :
  Task.__init__ (JStr s) parent = Raise TypeError.
Proof.
  reflexivity.
Qed.

Lemma Task_init_unfold (d : json) (parent : option json) :
  Task.__init__ d parent = Task.init_body Task.__init__ d parent.
Proof.
  destruct d; try reflexivity.
  unfold Task.init_body; cbn [Task.__init__].
  do 5 (apply bind_ext; intros ?).
  apply bind_ext; intros has_subtasks.
  f_equal.
  destruct has_subtasks; [|reflexivity].
  rewrite with_item_getitem. apply bind_ext; intros v.
  apply for_in_py_iter. intros key s.
  rewrite Task_init_str. destruct (truthy (JStr key)); reflexivity.
Qed.

(** ** Reading a dict *)

Lemma getitem_Ok_obj (d : json) (k : string) (v : json) :
  getitem d k = Ok v -> exists kvs, d = JObj kvs /\ assoc k kvs = Some v.
Proof.
  destruct d as [| | | | | |kvs]; try discriminate. simpl.
  destruct (assoc k kvs) as [x|] eqn:E; [|discriminate].
  intros [= ->]. exists kvs. auto.
Qed.

Lemma get_or_obj (kvs : list (string * json)) (k : string) (default : json) :
  get_or (JObj kvs) k default
  = Ok match assoc k kvs with Some v => v | None => default end.
Proof.
  unfold get_or, py_in, has_key, getitem. simpl.
  destruct (assoc k kvs); reflexivity.
Qed.

(** ** SotaRow records *)

(** C1 (as amended).  [SotaRow] requires both [model_name] and [metrics]:
    a record lacking [model_name] raises [KeyError]; so does a record that
    holds [model_name] alone, because [metrics] is read unconditionally; a
    record holding exactly [model_name] and [metrics] is accepted, with
    [paper_title] and [paper_url] the empty string, [paper_date] none,
    [code_links] and [model_links] empty and [metrics] the given value. *)
Theorem SotaRow_required_fields :
  (forall kvs, assoc "model_name" kvs = None ->
     SotaRow.__init__ (JObj kvs) = Raise KeyError)
  /\ (forall name, SotaRow.__init__ (JObj [("model_name", name)]) = Raise KeyError)
  /\ (forall name m,
        SotaRow.__init__ (JObj [("model_name", name); ("metrics", m)])
        = Ok {| SotaRow.model_name := name;
                SotaRow.paper_title := JStr "";
                SotaRow.paper_url := JStr "";
                SotaRow.paper_date := JNull;
                SotaRow.code_links := [];
                SotaRow.model_links := [];
                SotaRow.metrics := m |}).
Proof.
  split; [|split].
  - intros kvs H. unfold SotaRow.__init__, getitem. rewrite H. reflexivity.
  - intros name. reflexivity.
  - intros name m. reflexivity.
Qed.

Lemma SotaRow_required_fields_witness :
  assoc "model_name" [("paper_title", JStr "Attention")] = None
  /\ SotaRow.__init__ (JObj [("paper_title", JStr "Attention")]) = Raise KeyError.
Proof.
  split; [reflexivity|].
  apply (proj1 SotaRow_required_fields). reflexivity.
Defined.

(** C1, refuted as stated: a record that contains only [model_name] is not
    accepted. *)
Lemma SotaRow_only_model_name_fails :
  ~ exists row, SotaRow.__init__ (JObj [("model_name", JStr "BERT")]) = Ok row.
Proof.
  intros [row H]. discriminate H.
Qed.

(** ** Task records *)

(** C6 (as amended).  For every task record [d] that [Task] accepts, the
    serialized task gives back [d]'s [task], its [description] and
    [categories] (the defaults [""] and [[]] when absent), [synonyms] as the
    empty sequence, and [source_link] as none when the key is absent; when
    the key holds a record, [source_link] is the record of its [title] and
    [url], an absent one being the empty string and any other key dropped. *)
Theorem Task_to_dict_restores (d : json) (parent : option json) (t : Task.t) :
  Task.__init__ d parent = Ok t ->
  getitem (Task.to_dict t) "task" = getitem d "task"
  /\ getitem (Task.to_dict t) "description" = get_or d "description" (JStr "")
  /\ getitem (Task.to_dict t) "categories" = get_or d "categories" (JArr [])
  /\ getitem (Task.to_dict t) "synonyms" = Ok (JArr [])
  /\ (py_in "source_link" d = Ok false ->
      getitem (Task.to_dict t) "source_link" = Ok JNull)
  /\ (forall fields, getitem d "source_link" = Ok (JObj fields) ->
      getitem (Task.to_dict t) "source_link"
      = Ok (JObj [("title",
                   match assoc "title" fields with
                   | Some v => v
                   | None => JStr ""
                   end);
                  ("url",
                   match assoc "url" fields with
                   | Some v => v
                   | None => JStr ""
                   end)])).
Proof.
  intros H. rewrite Task_init_unfold in H. unfold Task.init_body in H.
  inv_bind H task Htask.
  destruct (getitem_Ok_obj _ _ _ Htask) as (kvs & -> & Hk).
  rewrite !get_or_obj in *.
  inv_bind H description Hdescription.
  inv_bind H categories Hcategories.
  inv_bind H has_datasets Hhas_datasets.
  inv_bind H datasets Hdatasets.
  inv_bind H has_subtasks Hhas_subtasks.
  inv_bind H subtasks Hsubtasks.
  inv_bind H has_source_link Hhas.
  inv_bind H source_link Hsl.
  injection H as <-. injection Hdescription as <-. injection Hcategories as <-.
  cbn [Task.to_dict Task.task Task.description Task.categories Task.synonyms
       Task.source_link map].
  repeat split; try (rewrite ?Htask; reflexivity).
  - intros Habsent. rewrite Habsent in Hhas. injection Hhas as <-.
    injection Hsl as <-. reflexivity.
  - intros fields Hf.
    simpl in Hhas. unfold has_key in Hhas. simpl in Hf.
    destruct (assoc "source_link" kvs) as [sl|] eqn:E; [|discriminate].
    injection Hf as ->. injection Hhas as <-.
    simpl in Hsl. rewrite E in Hsl. simpl in Hsl.
    unfold Link.__init__ in Hsl. rewrite !get_or_obj in Hsl. simpl in Hsl.
    injection Hsl as <-. reflexivity.
Qed.

Lemma Task_to_dict_restores_witness :
  exists t,
    Task.__init__ Sample.task_with_partial_link None = Ok t
    /\ getitem (Task.to_dict t) "source_link"
       = Ok (JObj [("title", JStr "Papers"); ("url", JStr "")]).
Proof.
  eexists. split; [reflexivity|].
  refine (proj2 (proj2 (proj2 (proj2 (proj2
    (Task_to_dict_restores Sample.task_with_partial_link None _ _)))))
    [("title", JStr "Papers")] _); reflexivity.
Defined.

(** C6, refuted as stated: the record's [source_link] is present and
    record-shaped, yet the serialized task holds a different record, with a
    [url] key the input does not have. *)
Lemma Task_source_link_not_restored :
  exists t sl_in sl_out,
    Task.__init__ Sample.task_with_partial_link None = Ok t
    /\ getitem Sample.task_with_partial_link "source_link" = Ok sl_in
    /\ sl_in = JObj [("title", JStr "Papers")]
    /\ getitem (Task.to_dict t) "source_link" = Ok sl_out
    /\ sl_out <> sl_in
    /\ py_in "url" sl_out = Ok true
    /\ py_in "url" sl_in = Ok false.
Proof.
  eexists. eexists. eexists.
  split; [reflexivity|]. split; [reflexivity|]. split; [reflexivity|].
  split; [reflexivity|]. split; [discriminate|]. split; reflexivity.
Qed.

(** ** Dataset records *)

Lemma for_each_append_links (items : list json) (acc r : list Link.t) :
  for_each items
    (fun link_d links =>
       if truthy link_d
       then l <- Link.__init__ link_d ;; Ok (links ++ [l])
       else Ok links) acc = Ok r ->
  exists new, links_of items new /\ r = acc ++ new.
Proof.
  unfold links_of. revert acc.
  induction items as [|e rest IH]; intros acc H; simpl in H.
  - injection H as <-. exists []. split; [constructor|].
    now rewrite app_nil_r.
  - inv_bind H acc' Hstep. simpl.
    destruct (truthy e).
    + inv_bind Hstep l Hl. injection Hstep as <-.
      destruct (IH _ H) as (new & Hnew & ->).
      exists (l :: new). split; [now constructor|].
      now rewrite <- app_assoc.
    + injection Hstep as <-. apply IH, H.
Qed.

Lemma append_links_spec (v : json) (acc r : list Link.t) :
  Link.append_links v acc = Ok r ->
  exists items new, py_iter v = Ok items /\ links_of items new /\ r = acc ++ new.
Proof.
  unfold Link.append_links. intros H. inv_bind H items Hitems.
  destruct (for_each_append_links _ _ _ H) as (new & Hnew & ->).
  exists items, new. auto.
Qed.

Lemma Dataset_to_dict_links (ds : Dataset.t) :
  getitem (Dataset.to_dict ds) "dataset_links"
  = Ok (JArr (map Link.to_dict (Dataset.dataset_links ds)))
  /\ getitem (Dataset.to_dict ds) "dataset_citations"
     = Ok (JArr (map Link.to_dict (Dataset.dataset_citations ds))).
Proof.
  destruct ds as [name descr parent metrics rows subs links cites].
  cbn [Dataset.to_dict Dataset.parent Dataset.sota_metrics Dataset.subdatasets
       Dataset.dataset Dataset.description Dataset.sota_rows
       Dataset.dataset_links Dataset.dataset_citations].
  destruct parent, (truthy metrics), subs; split; reflexivity.
Qed.

(** C8 (as amended).  For every dataset record holding a
    [dataset_citations] sequence, construction appends the link of each
    truthy citation entry (an entry that is neither null nor empty) onto
    [dataset_links], after the links that came from the [dataset_links]
    field, and leaves the stored [dataset_citations] empty; [to_dict] emits
    both keys, [dataset_links] with the merged links and
    [dataset_citations] always empty. *)
Theorem Dataset_citations_merged (d : json) (parent : option json)
  (ds : Dataset.t) (cites : list json) :
  Dataset.__init__ d parent = Ok ds ->
  getitem d "dataset_citations" = Ok (JArr cites) ->
  exists links cited,
    ((py_in "dataset_links" d = Ok false /\ links = [])
     \/ (exists v entries,
           getitem d "dataset_links" = Ok v
           /\ py_iter v = Ok entries
           /\ links_of entries links))
    /\ links_of cites cited
    /\ Dataset.dataset_links ds = links ++ cited
    /\ Dataset.dataset_citations ds = []
    /\ getitem (Dataset.to_dict ds) "dataset_links"
       = Ok (JArr (map Link.to_dict (links ++ cited)))
    /\ getitem (Dataset.to_dict ds) "dataset_citations" = Ok (JArr []).
Proof.
  intros H Hc. rewrite Dataset_init_unfold in H. unfold Dataset.init_body in H.
  inv_bind H has_sub Hhas_sub.
  inv_bind H dataset Hdataset.
  inv_bind H description Hdescription.
  inv_bind H has_sota Hhas_sota.
  inv_bind H sota Hsota.
  inv_bind H has_subdatasets Hhas_subdatasets.
  inv_bind H subdatasets Hsubdatasets.
  inv_bind H has_links Hhas_links.
  inv_bind H links Hlinks.
  inv_bind H has_citations Hhas_citations.
  inv_bind H merged Hmerged.
  injection H as <-.
  destruct (getitem_Ok_obj _ _ _ Hc) as (kvs & -> & Hk).
  simpl in Hhas_citations. unfold has_key in Hhas_citations.
  rewrite Hk in Hhas_citations. injection Hhas_citations as <-.
  rewrite Hc in Hmerged. simpl in Hmerged.
  destruct (append_links_spec _ _ _ Hmerged) as (items & cited & Hit & Hcited & ->).
  injection Hit as <-.
  exists links, cited.
  split.
  { destruct has_links.
    - right. inv_bind Hlinks v Hv.
      destruct (append_links_spec _ _ _ Hlinks) as (entries & new & He & Hn & ->).
      exists v, entries. auto.
    - left. injection Hlinks as <-. auto. }
  split; [exact Hcited|].
  split; [reflexivity|]. split; [reflexivity|].
  apply Dataset_to_dict_links.
Qed.

Lemma Dataset_citations_merged_witness :
  exists ds,
    Dataset.__init__ Sample.dataset_with_citations None = Ok ds
    /\ Dataset.dataset_links ds
       = [{| Link.title := JStr ""; Link.url := JStr "u" |};
          {| Link.title := JStr "Marcus 1993"; Link.url := JStr "" |}]
    /\ Dataset.dataset_citations ds = [].
Proof.
  eexists. split; [reflexivity|]. split; [reflexivity|].
  destruct (Dataset_citations_merged Sample.dataset_with_citations None _
              [JObj []; JObj [("title", JStr "Marcus 1993")]]
              eq_refl eq_refl)
    as (links & cited & _ & _ & _ & Hempty & _).
  exact Hempty.
Defined.

(** C8, refuted as stated: the citation entry [{}] is not null, yet no link
    is appended for it. *)
Lemma Dataset_empty_citation_skipped :
  exists ds,
    Dataset.__init__
      (JObj [("dataset", JStr "PTB"); ("dataset_citations", JArr [JObj []])])
      None = Ok ds
    /\ JObj [] <> JNull
    /\ Link.__init__ (JObj []) = Ok {| Link.title := JStr ""; Link.url := JStr "" |}
    /\ Dataset.dataset_links ds = [].
Proof.
  eexists. split; [reflexivity|]. split; [discriminate|].
  split; reflexivity.
Qed.

(** C7.  [Dataset.to_dict] emits the [sota] block exactly when
    [sota_metrics] is truthy: with [sota_metrics] empty the key is absent
    whatever [sota_rows] holds, so the rows do not reach the output; with
    [sota_metrics] non-empty the block holds the metrics and the serialized
    rows. *)
Theorem Dataset_to_dict_sota_block (ds : Dataset.t) :
  getitem (Dataset.to_dict ds) "sota"
  = (if truthy (Dataset.sota_metrics ds)
     then Ok (JObj [("metrics", Dataset.sota_metrics ds);
                    ("rows",
                     JArr (map SotaRow.to_dict (Dataset.sota_rows ds)))])
     else Raise KeyError)
  /\ (Dataset.sota_metrics ds = JArr [] ->
      py_in "sota" (Dataset.to_dict ds) = Ok false)
  /\ (forall m ms, Dataset.sota_metrics ds = JArr (m :: ms) ->
      getitem (Dataset.to_dict ds) "sota"
      = Ok (JObj [("metrics", JArr (m :: ms));
                  ("rows", JArr (map SotaRow.to_dict (Dataset.sota_rows ds)))])).
Proof.
  destruct ds as [name descr parent metrics rows subs links cites].
  cbn [Dataset.to_dict Dataset.parent Dataset.sota_metrics Dataset.subdatasets
       Dataset.dataset Dataset.description Dataset.sota_rows
       Dataset.dataset_links Dataset.dataset_citations].
  split; [|split].
  - destruct parent, (truthy metrics), subs; reflexivity.
  - intros ->. destruct parent, subs; reflexivity.
  - intros m ms ->. destruct parent, subs; reflexivity.
Qed.

Lemma Dataset_to_dict_sota_block_witness :
  exists ds,
    Dataset.__init__ Sample.dataset_without_metrics None = Ok ds
    /\ Dataset.sota_rows ds <> []
    /\ py_in "sota" (Dataset.to_dict ds) = Ok false.
Proof.
  eexists. split; [reflexivity|]. split; [discriminate|].
  refine (proj1 (proj2 (Dataset_to_dict_sota_block _)) _). reflexivity.
Defined.

(** ** Induction on task trees *)

Lemma Task_ind_subtasks (P : Task.t -> Prop) :
  (forall t, Forall P (Task.subtasks t) -> P t) -> forall t, P t.
Proof.
  intros step. fix IH 1. intros t. apply step.
  destruct t as [name descr parent cats dss subs syns sl]. simpl.
  induction subs as [|st rest IHrest]; constructor; [apply IH|exact IHrest].
Qed.

Lemma find_sota_tasks_unfold (task : Task.t) (out : list Task.t) :
  find_sota_tasks task out
  = fold_left (fun out subtask => find_sota_tasks subtask out)
      (Task.subtasks task)
      (if fold_left check_dataset (Task.datasets task) false
       then out ++ [task] else out).
Proof.
  destruct task; reflexivity.
Qed.

Lemma find_sota_datasets_unfold (task : Task.t) (out : list Dataset.t) :
  find_sota_datasets task out
  = fold_left (fun out subtask => find_sota_datasets subtask out)
      (Task.subtasks task)
      (snd (fold_left
              (fun '(add, out) d =>
                 let add := check_dataset add d in
                 let out := if add then out ++ [d] else out in
                 (add, out))
              (Task.datasets task) (false, out))).
Proof.
  destruct task as [name descr parent cats dss subs syns sl]. simpl.
  destruct (fold_left _ dss (false, out)). reflexivity.
Qed.

Lemma spec_preorder_unfold (t : Task.t) :
  spec_preorder t = t :: flat_map spec_preorder (Task.subtasks t).
Proof.
  destruct t; reflexivity.
Qed.

(** ** The flag of the dataset loops *)

Lemma check_subdatasets (sds : list Dataset.t) (add : bool) :
  fold_left
    (fun add sd => if list_truthy (Dataset.sota_rows sd) then true else add)
    sds add
  = add || existsb (fun sd => list_truthy (Dataset.sota_rows sd)) sds.
Proof.
  revert add. induction sds as [|sd rest IH]; intros add; simpl.
  - now rewrite orb_false_r.
  - rewrite IH. destruct (list_truthy (Dataset.sota_rows sd)), add; reflexivity.
Qed.

Lemma check_dataset_spec (add : bool) (d : Dataset.t) :
  check_dataset add d = add || spec_dataset_has_sota d.
Proof.
  unfold check_dataset, spec_dataset_has_sota. rewrite check_subdatasets.
  destruct (list_truthy (Dataset.sota_rows d)), add; reflexivity.
Qed.

Lemma fold_check_dataset (ds : list Dataset.t) (add : bool) :
  fold_left check_dataset ds add = add || existsb spec_dataset_has_sota ds.
Proof.
  revert add. induction ds as [|d rest IH]; intros add; simpl.
  - now rewrite orb_false_r.
  - rewrite IH, check_dataset_spec. now rewrite orb_assoc.
Qed.

(** ** tasks_with_sota *)

Lemma find_sota_tasks_spec (t : Task.t) :
  forall out,
    find_sota_tasks t out = out ++ filter spec_task_has_sota (spec_preorder t).
Proof.
  induction t as [t IH] using Task_ind_subtasks. intros out.
  rewrite find_sota_tasks_unfold, spec_preorder_unfold, fold_check_dataset.
  simpl orb. fold (spec_task_has_sota t). simpl filter.
  set (out0 := if spec_task_has_sota t then out ++ [t] else out).
  assert (E : out ++ (if spec_task_has_sota t
                      then t :: filter spec_task_has_sota
                                  (flat_map spec_preorder (Task.subtasks t))
                      else filter spec_task_has_sota
                             (flat_map spec_preorder (Task.subtasks t)))
              = out0 ++ filter spec_task_has_sota
                          (flat_map spec_preorder (Task.subtasks t))).
  { unfold out0. destruct (spec_task_has_sota t); [|reflexivity].
    now rewrite <- app_assoc. }
  rewrite E. clear E. generalize out0. clear out0 out.
  induction IH as [|st rest Hst _ IHrest]; intros out; simpl.
  - now rewrite app_nil_r.
  - rewrite Hst, IHrest, filter_app. now rewrite app_assoc.
Qed.

Lemma tasks_with_sota_spec (tasks : TaskDb.registry) :
  TaskDb.tasks_with_sota tasks = spec_tasks_with_sota tasks.
Proof.
  unfold TaskDb.tasks_with_sota, spec_tasks_with_sota.
  change (filter spec_task_has_sota (flat_map spec_preorder (TaskDb.values tasks)))
    with ([] ++ filter spec_task_has_sota
                 (flat_map spec_preorder (TaskDb.values tasks))).
  generalize (@nil Task.t). induction (TaskDb.values tasks) as [|t rest IH];
    intros out; simpl.
  - now rewrite app_nil_r.
  - rewrite find_sota_tasks_spec, IH, filter_app. now rewrite app_assoc.
Qed.

(** C5.  [tasks_with_sota] returns exactly the tasks, top-level or nested at
    any depth, that own a dataset whose rows, or one of whose direct
    subdatasets' rows, are non-empty: the qualifying ones among the top-level
    tasks in registry order, each followed by its subtasks' trees, a task
    before its subtasks. *)
Theorem tasks_with_sota_preorder (tasks : TaskDb.registry) :
  TaskDb.tasks_with_sota tasks
  = filter
      (fun t =>
         existsb
           (fun d =>
              list_truthy (Dataset.sota_rows d)
              || existsb (fun sd => list_truthy (Dataset.sota_rows sd))
                   (Dataset.subdatasets d))
           (Task.datasets t))
      (flat_map spec_preorder (TaskDb.values tasks)).
Proof.
  apply tasks_with_sota_spec.
Qed.

Lemma add_task_three (a b c : string) (A B C : Task.t) :
  a <> b -> a <> c -> b <> c ->
  TaskDb.add_task c C (TaskDb.add_task b B (TaskDb.add_task a A []))
  = [(a, A); (b, B); (c, C)].
Proof.
  intros Hab Hac Hbc. unfold TaskDb.add_task. simpl.
  apply not_eq_sym, String.eqb_neq in Hab, Hac, Hbc.
  rewrite Hab. simpl. rewrite Hac, Hbc. reflexivity.
Qed.

(** C4 (as amended).  On a registry holding, in this order, task A with no
    datasets, task B with one dataset holding one row, and task C with no
    dataset of its own whose subtask D has one dataset holding one row,
    [tasks_with_sota] returns exactly [B; D]: C owns no dataset with rows and
    is left out, like A. *)
Theorem tasks_with_sota_scenario (a b c : string) (A B C D : Task.t)
  (dsB dsD : Dataset.t) (rowB rowD : SotaRow.t) :
  a <> b -> a <> c -> b <> c ->
  Task.datasets A = [] -> Task.subtasks A = [] ->
  Task.datasets B = [dsB] -> Dataset.sota_rows dsB = [rowB] ->
  Task.subtasks B = [] ->
  Task.datasets C = [] -> Task.subtasks C = [D] ->
  Task.datasets D = [dsD] -> Dataset.sota_rows dsD = [rowD] ->
  Task.subtasks D = [] ->
  TaskDb.tasks_with_sota
    (TaskDb.add_task c C (TaskDb.add_task b B (TaskDb.add_task a A [])))
  = [B; D].
Proof.
  intros Hab Hac Hbc HAd HAs HBd HBr HBs HCd HCs HDd HDr HDs.
  rewrite add_task_three by assumption.
  rewrite tasks_with_sota_spec. unfold spec_tasks_with_sota. simpl.
  rewrite (spec_preorder_unfold A), (spec_preorder_unfold B),
    (spec_preorder_unfold C), HAs, HBs, HCs. simpl.
  rewrite (spec_preorder_unfold D), HDs. simpl.
  unfold spec_task_has_sota, spec_dataset_has_sota.
  rewrite HAd, HBd, HCd, HDd. simpl. rewrite HBr, HDr. reflexivity.
Qed.

Lemma tasks_with_sota_scenario_witness :
  exists A B C D,
    Task.__init__ Scenario.record_A None = Ok A
    /\ Task.__init__ Scenario.record_B None = Ok B
    /\ Task.__init__ Scenario.record_C None = Ok C
    /\ Task.subtasks C = [D]
    /\ TaskDb.tasks_with_sota
         (TaskDb.add_task "C" C (TaskDb.add_task "B" B (TaskDb.add_task "A" A [])))
       = [B; D].
Proof.
  eexists. eexists. eexists. eexists.
  split; [reflexivity|]. split; [reflexivity|]. split; [reflexivity|].
  split; [reflexivity|].
  eapply tasks_with_sota_scenario;
    solve [discriminate | reflexivity].
Defined.

(** C4, refuted as stated: on the registry loaded from the records of A, B
    and C (with its subtask D) the result is not [B; C; D]. *)
Lemma tasks_with_sota_scenario_excludes_C :
  exists A B C D,
    Task.__init__ Scenario.record_A None = Ok A
    /\ Task.__init__ Scenario.record_B None = Ok B
    /\ Task.__init__ Scenario.record_C None = Ok C
    /\ Task.subtasks C = [D]
    /\ TaskDb.tasks_with_sota
         (TaskDb.add_task "C" C (TaskDb.add_task "B" B (TaskDb.add_task "A" A [])))
       <> [B; C; D].
Proof.
  eexists. eexists. eexists. eexists.
  split; [reflexivity|]. split; [reflexivity|]. split; [reflexivity|].
  split; [reflexivity|].
  vm_compute. discriminate.
Qed.

(** ** datasets_with_sota *)

Lemma check_dataset_true (d : Dataset.t) : check_dataset true d = true.
Proof.
  now rewrite check_dataset_spec.
Qed.

Lemma fold_datasets_flag_set (ds : list Dataset.t) (out : list Dataset.t) :
  fold_left
    (fun '(add, out) d =>
       let add := check_dataset add d in
       let out := if add then out ++ [d] else out in
       (add, out))
    ds (true, out)
  = (true, out ++ ds).
Proof.
  revert out. induction ds as [|d rest IH]; intros out; simpl.
  - now rewrite app_nil_r.
  - rewrite check_dataset_true, IH. now rewrite <- app_assoc.
Qed.

(** C2, what the code does instead.  The flag [add] is set to false once
    per task and never reset between datasets: when the first dataset of a
    task has rows, every later dataset of that task is appended as well,
    whatever it holds. *)
Theorem datasets_with_sota_flag_not_reset (name : string) (task : Task.t)
  (d : Dataset.t) (rest : list Dataset.t) :
  Task.datasets task = d :: rest ->
  list_truthy (Dataset.sota_rows d) = true ->
  Task.subtasks task = [] ->
  TaskDb.datasets_with_sota (TaskDb.add_task name task []) = d :: rest.
Proof.
  intros Hd Hrows Hs.
  unfold TaskDb.datasets_with_sota, TaskDb.add_task. simpl.
  rewrite find_sota_datasets_unfold, Hd, Hs. simpl.
  replace (check_dataset false d) with true.
  - rewrite fold_datasets_flag_set. reflexivity.
  - rewrite check_dataset_spec. unfold spec_dataset_has_sota.
    now rewrite Hrows.
Qed.

Lemma datasets_with_sota_flag_not_reset_witness :
  exists T d1 d2,
    Task.__init__ Scenario.record_T None = Ok T
    /\ Task.datasets T = [d1; d2]
    /\ Dataset.sota_rows d2 = [] /\ Dataset.subdatasets d2 = []
    /\ TaskDb.datasets_with_sota (TaskDb.add_task "T" T []) = [d1; d2].
Proof.
  eexists. eexists. eexists.
  split; [reflexivity|]. split; [reflexivity|]. split; [reflexivity|].
  split; [reflexivity|].
  apply datasets_with_sota_flag_not_reset; reflexivity.
Defined.

(** ** get_task *)

Lemma scan_subtasks_find (name : string) (subtasks : list Task.t) :
  TaskDb.scan_subtasks name subtasks
  = find (fun subtask => is_str name (Task.task subtask)) subtasks.
Proof.
  induction subtasks as [|st rest IH]; simpl; [reflexivity|].
  destruct (is_str name (Task.task st)); [reflexivity|exact IH].
Qed.

Lemma find_app {A : Type} (p : A -> bool) (l1 l2 : list A) :
  find p (l1 ++ l2)
  = match find p l1 with Some x => Some x | None => find p l2 end.
Proof.
  induction l1 as [|x rest IH]; simpl; [reflexivity|].
  destruct (p x); [reflexivity|exact IH].
Qed.

Lemma scan_tasks_find (name : string) (ts : list Task.t) :
  TaskDb.scan_tasks name ts
  = find (fun subtask => is_str name (Task.task subtask))
      (flat_map Task.subtasks ts).
Proof.
  induction ts as [|t rest IH]; simpl; [reflexivity|].
  rewrite find_app, scan_subtasks_find, IH. reflexivity.
Qed.

Lemma get_task_spec (name : string) (tasks : TaskDb.registry) :
  TaskDb.get_task name tasks = spec_get_task name tasks.
Proof.
  unfold TaskDb.get_task, spec_get_task, has_key.
  destruct (assoc name tasks); [reflexivity|apply scan_tasks_find].
Qed.

Lemma is_str_true (name : string) (v : json) :
  is_str name v = true <-> v = JStr name.
Proof.
  destruct v; simpl; try (split; [discriminate|intros [=]]).
  rewrite String.eqb_eq. split; [now intros ->|now intros [= ->]].
Qed.

(** C9.  [get_task name] returns the top-level task registered under
    [name] when there is one; otherwise the first direct subtask, over the
    top-level tasks in registry order, whose [task] is [name]; and none when
    [name] is neither a top-level key nor the name of a direct subtask,
    whatever lies deeper. *)
Theorem get_task_lookup (name : string) (tasks : TaskDb.registry) :
  (forall t, assoc name tasks = Some t -> TaskDb.get_task name tasks = Some t)
  /\ (assoc name tasks = None ->
      TaskDb.get_task name tasks
      = find (fun subtask => is_str name (Task.task subtask))
          (flat_map Task.subtasks (TaskDb.values tasks)))
  /\ (assoc name tasks = None ->
      (forall t subtask,
         In t (TaskDb.values tasks) -> In subtask (Task.subtasks t) ->
         Task.task subtask <> JStr name) ->
      TaskDb.get_task name tasks = None).
Proof.
  rewrite get_task_spec. unfold spec_get_task.
  split; [|split].
  - intros t ->. reflexivity.
  - intros ->. reflexivity.
  - intros -> Hnone.
    destruct (find _ _) as [st|] eqn:E; [|reflexivity].
    apply find_some in E. destruct E as [Hin Hst].
    apply in_flat_map in Hin. destruct Hin as (t & Ht & Hsub).
    apply is_str_true in Hst. now apply Hnone in Hsub.
Qed.

Lemma get_task_lookup_witness :
  exists E F G,
    Task.__init__ Scenario.record_E None = Ok E
    /\ Task.subtasks E = [F] /\ Task.subtasks F = [G]
    /\ Task.task G = JStr "G"
    /\ TaskDb.get_task "E" (TaskDb.add_task "E" E []) = Some E
    /\ TaskDb.get_task "F" (TaskDb.add_task "E" E []) = Some F
    /\ TaskDb.get_task "G" (TaskDb.add_task "E" E []) = None.
Proof.
  eexists. eexists. eexists.
  split; [reflexivity|]. split; [reflexivity|]. split; [reflexivity|].
  split; [reflexivity|].
  split; [|split].
  - apply (proj1 (get_task_lookup "E" _)). reflexivity.
  - rewrite (proj1 (proj2 (get_task_lookup "F" _))); reflexivity.
  - apply (proj2 (proj2 (get_task_lookup "G" _))); [reflexivity|].
    intros t st [<-|[]] [<-|[]]. discriminate.
Defined.

(** ** load_synonyms *)

Section Updates.

Variable f : Task.t -> Task.t.
Hypothesis f_task : forall t, Task.task (f t) = Task.task t.
Hypothesis f_subtasks : forall t, Task.subtasks (f t) = Task.subtasks t.

Lemma has_key_update_key (x name : string) (tasks : TaskDb.registry) :
  has_key x (TaskDb.update_key name f tasks) = has_key x tasks.
Proof.
  unfold has_key.
  induction tasks as [|[k t] rest IH]; simpl; [reflexivity|].
  destruct (String.eqb name k); simpl; destruct (String.eqb x k); auto.
Qed.

Lemma has_key_update_scan (x name : string) (tasks : TaskDb.registry) :
  has_key x (TaskDb.update_scan name f tasks) = has_key x tasks.
Proof.
  unfold has_key.
  induction tasks as [|[k t] rest IH]; simpl; [reflexivity|].
  destruct (TaskDb.scan_subtasks name (Task.subtasks t)); simpl;
    destruct (String.eqb x k); auto.
Qed.

Lemma scan_tasks_update_key (x name : string) (tasks : TaskDb.registry) :
  TaskDb.scan_tasks x (TaskDb.values (TaskDb.update_key name f tasks))
  = TaskDb.scan_tasks x (TaskDb.values tasks).
Proof.
  induction tasks as [|[k t] rest IH]; simpl; [reflexivity|].
  destruct (String.eqb name k); simpl.
  - now rewrite f_subtasks.
  - now rewrite IH.
Qed.

Lemma scan_subtasks_update_subtask (x name : string) (subtasks : list Task.t) :
  found (TaskDb.scan_subtasks x (TaskDb.update_subtask name f subtasks))
  = found (TaskDb.scan_subtasks x subtasks).
Proof.
  induction subtasks as [|st rest IH]; simpl; [reflexivity|].
  destruct (is_str name (Task.task st)); simpl.
  - rewrite f_task. destruct (is_str x (Task.task st)); reflexivity.
  - destruct (is_str x (Task.task st)); [reflexivity|exact IH].
Qed.

Lemma scan_tasks_update_scan (x name : string) (tasks : TaskDb.registry) :
  found (TaskDb.scan_tasks x (TaskDb.values (TaskDb.update_scan name f tasks)))
  = found (TaskDb.scan_tasks x (TaskDb.values tasks)).
Proof.
  induction tasks as [|[k t] rest IH]; simpl; [reflexivity|].
  destruct (TaskDb.scan_subtasks name (Task.subtasks t)) eqn:E; simpl.
  - pose proof (scan_subtasks_update_subtask x name (Task.subtasks t)) as U.
    destruct t as [tn td tp tc tds tsub tsyn tsl]. simpl in *.
    destruct (TaskDb.scan_subtasks x (TaskDb.update_subtask name f tsub)),
      (TaskDb.scan_subtasks x tsub); simpl in *;
      try discriminate; reflexivity.
  - destruct (TaskDb.scan_subtasks x (Task.subtasks t)); [reflexivity|exact IH].
Qed.

Lemma resolvable_update_task (x name : string) (tasks : TaskDb.registry) :
  resolvable x (TaskDb.update_task name f tasks) = resolvable x tasks.
Proof.
  unfold resolvable, TaskDb.update_task, TaskDb.get_task.
  destruct (has_key name tasks).
  - rewrite has_key_update_key, scan_tasks_update_key.
    destruct (has_key x tasks) eqn:E; [|reflexivity].
    pose proof (has_key_update_key x name tasks) as U. rewrite E in U.
    unfold has_key in U, E.
    destruct (assoc x (TaskDb.update_key name f tasks)),
      (assoc x tasks); try discriminate; reflexivity.
  - rewrite has_key_update_scan.
    destruct (has_key x tasks) eqn:E.
    + pose proof (has_key_update_scan x name tasks) as U. rewrite E in U.
      unfold has_key in U, E.
      destruct (assoc x (TaskDb.update_scan name f tasks)),
        (assoc x tasks); try discriminate; reflexivity.
    + apply scan_tasks_update_scan.
Qed.





End Updates.

Lemma resolvable_append_synonym (x name synonym : string)
  (tasks : TaskDb.registry) :
  resolvable x (TaskDb.update_task name (Task.append_synonym synonym) tasks)
  = resolvable x tasks.
Proof.
  apply resolvable_update_task; intros t; reflexivity.
Qed.

(** A row that makes [load_row] index past its end: no field at all, or a
    single field that names a task [get_task] finds. *)
Lemma load_row_short (row : list string) (tasks : TaskDb.registry) :
  row = [] \/ (exists name, row = [name] /\ resolvable name tasks = true) ->
  TaskDb.load_row row tasks = Raise IndexError.
Proof.
  intros [->|(name & -> & R)]; [reflexivity|].
  unfold TaskDb.load_row, resolvable in *. simpl.
  destruct (TaskDb.get_task name tasks); [reflexivity|discriminate R].
Qed.

Lemma load_row_outcome (row : list string) (tasks : TaskDb.registry) :
  match TaskDb.load_row row tasks with
  | Ok tasks' => forall x, resolvable x tasks' = resolvable x tasks
  | Raise e => e = IndexError
  end.
Proof.
  unfold TaskDb.load_row, TaskDb.index.
  destruct row as [|name [|synonym rest]]; simpl; [reflexivity| |].
  - destruct (TaskDb.get_task name tasks); simpl; [reflexivity|auto].
  - destruct (TaskDb.get_task name tasks); simpl; [|auto].
    intros x. apply resolvable_append_synonym.
Qed.

Lemma load_rows_short (rows : list (list string)) (row : list string) :
  In row rows ->
  forall tasks,
    row = [] \/ (exists name, row = [name] /\ resolvable name tasks = true) ->
    for_each rows TaskDb.load_row tasks = Raise IndexError.
Proof.
  induction rows as [|r rest IH]; intros Hin tasks Hshort; [destruct Hin|].
  simpl. destruct Hin as [->|Hin].
  - now rewrite load_row_short.
  - pose proof (load_row_outcome r tasks) as O.
    destruct (TaskDb.load_row r tasks) as [tasks'|e]; simpl; [|now subst].
    apply IH; [exact Hin|].
    destruct Hshort as [->|(name & -> & R)]; [now left|right].
    exists name. now rewrite O.
Qed.

Lemma for_each_app {A S : Type} (body : A -> S -> result S) (l1 l2 : list A)
  (s : S) :
  for_each (l1 ++ l2) body s = s' <- for_each l1 body s ;; for_each l2 body s'.
Proof.
  revert s. induction l1 as [|x rest IH]; intros s; simpl; [reflexivity|].
  destruct (body x s); simpl; [apply IH|reflexivity].
Qed.

Lemma load_synonyms_concat (csv_files : list (list (list string)))
  (tasks : TaskDb.registry) :
  TaskDb.load_synonyms csv_files tasks
  = for_each (List.concat csv_files) TaskDb.load_row tasks.
Proof.
  unfold TaskDb.load_synonyms. revert tasks.
  induction csv_files as [|reader rest IH]; intros tasks; simpl; [reflexivity|].
  rewrite for_each_app. apply bind_ext. exact IH.
Qed.

(** C10.  [load_synonyms] reads [row[0]] and, once [get_task] has found the
    task, [row[1]], with no check of the row's length: if some row of some
    file is empty, or has a single field that names a task [get_task]
    resolves, the call raises [IndexError]; the row is not skipped. *)
Theorem load_synonyms_short_row (csv_files : list (list (list string)))
  (tasks : TaskDb.registry) (row : list string) :
  In row (List.concat csv_files) ->
  row = [] \/ (exists name, row = [name] /\ TaskDb.get_task name tasks <> None) ->
  TaskDb.load_synonyms csv_files tasks = Raise IndexError.
Proof.
  intros Hin Hshort. rewrite load_synonyms_concat.
  apply (load_rows_short _ row Hin).
  destruct Hshort as [->|(name & -> & R)]; [now left|right].
  exists name. split; [reflexivity|].
  unfold resolvable. destruct (TaskDb.get_task name tasks);
    [reflexivity|now destruct R].
Qed.

Lemma load_synonyms_short_row_witness :
  exists E,
    Task.__init__ Scenario.record_E None = Ok E
    /\ TaskDb.load_synonyms [[["E"; "e"]; ["unknown"]; ["F"]]]
         (TaskDb.add_task "E" E [])
       = Raise IndexError.
Proof.
  eexists. split; [reflexivity|].
  apply (load_synonyms_short_row _ _ ["F"]).
  - simpl. auto.
  - right. exists "F". split; [reflexivity|discriminate].
Defined.

(** A one-field row whose field names no task is dropped without error. *)
Lemma load_row_unresolved (name : string) (tasks : TaskDb.registry) :
  TaskDb.get_task name tasks = None ->
  TaskDb.load_row [name] tasks = Ok tasks.
Proof.
  intros H. unfold TaskDb.load_row. simpl. now rewrite H.
Qed.

(** ** The precision and recall block of [eval_all.py] *)

(** C3, what the code does instead.  With no true positive and no false
    negative, the guard of the recall assignment itself divides by
    [len(tp) + len(fn)], which is zero: [ZeroDivisionError] is raised,
    whatever [fp] holds. *)
Theorem precision_recall_zero_division (A : Type) (fp : list A) :
  EvalAll.precision_recall [] [] fp = Raise ZeroDivisionError.
Proof.
  unfold EvalAll.precision_recall. simpl.
  destruct (negb (EvalAll.len fp =? 0)%Z); simpl; [|reflexivity].
  unfold EvalAll.truediv.
  destruct (EvalAll.len fp =? 0)%Z; reflexivity.
Qed.

(** The precision guard tests the denominator first and yields zero. *)
Lemma precision_guarded (A : Type) (fn : list A) (x : A) :
  EvalAll.precision_recall [] (x :: fn) [] = Ok (0%Q, 0%Q).
Proof.
  unfold EvalAll.precision_recall, EvalAll.truediv, EvalAll.len.
  simpl. reflexivity.
Qed.

(** The scenario of the specification: three true positives, one false
    positive, no false negative. *)
Example precision_recall_3_0_1 :
  EvalAll.precision_recall [1; 2; 3]%nat [] [4]%nat = Ok (3 # 4, 3 # 3)%Q.
Proof.
  reflexivity.
Qed.

(** * Further properties *)

(** ** Links and rows: serialize, then load *)

Lemma Link_init_to_dict (l : Link.t) :
  Link.__init__ (Link.to_dict l) = Ok l.
Proof.
  destruct l as [title url]. reflexivity.
Qed.

Lemma append_links_to_dict (ls acc : list Link.t) :
  Link.append_links (JArr (map Link.to_dict ls)) acc = Ok (acc ++ ls).
Proof.
  unfold Link.append_links. simpl. revert acc.
  induction ls as [|[title url] rest IH]; intros acc; simpl.
  - now rewrite app_nil_r.
  - rewrite IH, <- app_assoc. reflexivity.
Qed.

Lemma SotaRow_init_to_dict (r : SotaRow.t) :
  SotaRow.__init__ (SotaRow.to_dict r) = Ok r.
Proof.
  destruct r as [name title url date code model metrics].
  unfold SotaRow.__init__, SotaRow.to_dict. rewrite !get_or_obj.
  cbn [SotaRow.model_name SotaRow.paper_title SotaRow.paper_url
       SotaRow.paper_date SotaRow.code_links SotaRow.model_links
       SotaRow.metrics].
  simpl. rewrite !append_links_to_dict. reflexivity.
Qed.

(** X1.  A serialized row loads back as the same row, links included. *)
Theorem SotaRow_roundtrip (r : SotaRow.t) :
  SotaRow.__init__ (SotaRow.to_dict r) = Ok r.
Proof.
  apply SotaRow_init_to_dict.
Qed.

Lemma append_rows_to_dict (rs acc : list SotaRow.t) :
  SotaRow.append_rows (JArr (map SotaRow.to_dict rs)) acc = Ok (acc ++ rs).
Proof.
  unfold SotaRow.append_rows. simpl. revert acc.
  induction rs as [|r rest IH]; intros acc; simpl.
  - now rewrite app_nil_r.
  - rewrite SotaRow_init_to_dict. simpl. rewrite IH, <- app_assoc. reflexivity.
Qed.

Lemma Link_init_obj (kvs : list (string * json)) :
  Link.__init__ (JObj kvs) = Ok (Link_of_record kvs).
Proof.
  unfold Link.__init__. rewrite !get_or_obj. reflexivity.
Qed.

(** X2.  A list of link entries in which every entry is a record or null
    never makes the link loop fail: it adds one link per non-empty record, in
    order, and passes over nulls and empty records. *)
Theorem append_links_records (entries : list json) (acc : list Link.t) :
  Forall (fun e => e = JNull \/ exists kvs, e = JObj kvs) entries ->
  exists links,
    Link.append_links (JArr entries) acc = Ok (acc ++ links)
    /\ links_of entries links
    /\ List.length links = List.length (filter truthy entries).
Proof.
  unfold Link.append_links, links_of. cbn [py_iter bind]. intros H. revert acc.
  induction H as [|e rest He _ IH]; intros acc; cbn [for_each filter].
  - exists []. rewrite app_nil_r. repeat split. constructor.
  - destruct He as [->|[kvs ->]]; [apply IH|].
    destruct (truthy (JObj kvs)); [|apply IH].
    pose proof (Link_init_obj kvs) as L. rewrite L. cbn [bind].
    destruct (IH (acc ++ [Link_of_record kvs])) as (links & Hrun & Hof & Hlen).
    exists (Link_of_record kvs :: links). rewrite Hrun, <- app_assoc.
    split; [reflexivity|]. split; [now constructor|].
    simpl. now rewrite Hlen.
Qed.

Lemma append_links_records_witness :
  exists links,
    Link.append_links
      (JArr [JNull; JObj [("url", JStr "u")]; JObj []]) [] = Ok links
    /\ List.length links = 1%nat.
Proof.
  destruct (append_links_records
              [JNull; JObj [("url", JStr "u")]; JObj []] [])
    as (links & Hrun & _ & Hlen).
  - constructor; [now left|].
    constructor; [right; eexists; reflexivity|].
    constructor; [right; eexists; reflexivity|constructor].
  - exists links. split; [exact Hrun|exact Hlen].
Defined.

(** ** Datasets: serialize, then load *)

Lemma Dataset_ind_subdatasets (P : Dataset.t -> Prop) :
  (forall ds, Forall P (Dataset.subdatasets ds) -> P ds) -> forall ds, P ds.
Proof.
  intros step. fix IH 1. intros ds. apply step.
  destruct ds as [name descr parent metrics rows subs links cites]. simpl.
  induction subs as [|sd rest IHrest]; constructor; [apply IH|exact IHrest].
Qed.

(** The dict [to_dict] builds, entry by entry. *)
Lemma Dataset_to_dict_entries (ds : Dataset.t) :
  Dataset.to_dict ds
  = JObj
      ((match Dataset.parent ds with
        | Some _ => "subdataset"
        | None => "dataset"
        end, Dataset.dataset ds)
       :: ("description", Dataset.description ds)
       :: (if truthy (Dataset.sota_metrics ds)
           then [("sota",
                  JObj [("metrics", Dataset.sota_metrics ds);
                        ("rows",
                         JArr (map SotaRow.to_dict (Dataset.sota_rows ds)))])]
           else [])
       ++ (match Dataset.subdatasets ds with
           | [] => []
           | _ :: _ =>
               [("subdatasets",
                 JArr (map Dataset.to_dict (Dataset.subdatasets ds)))]
           end)
       ++ [("dataset_links",
            JArr (map Link.to_dict (Dataset.dataset_links ds)));
           ("dataset_citations",
            JArr (map Link.to_dict (Dataset.dataset_citations ds)))]).
Proof.
  destruct ds as [name descr parent metrics rows subs links cites].
  cbn [Dataset.to_dict Dataset.parent Dataset.sota_metrics Dataset.subdatasets
       Dataset.dataset Dataset.description Dataset.sota_rows
       Dataset.dataset_links Dataset.dataset_citations].
  destruct parent, (truthy metrics), subs; reflexivity.
Qed.

Lemma Dataset_to_dict_truthy (ds : Dataset.t) :
  truthy (Dataset.to_dict ds) = true.
Proof.
  rewrite Dataset_to_dict_entries. reflexivity.
Qed.

Lemma reload_subdatasets (name : json) (subs acc : list Dataset.t) :
  Forall
    (fun sd => forall parent,
       Dataset.__init__ (Dataset.to_dict sd) parent
       = Ok (Dataset_reloaded parent sd)) subs ->
  for_each (map Dataset.to_dict subs)
    (fun subd_d subdatasets =>
       if truthy subd_d
       then sd <- Dataset.__init__ subd_d (Some name) ;; Ok (subdatasets ++ [sd])
       else Ok subdatasets) acc
  = Ok (acc ++ map (Dataset_reloaded (Some name)) subs).
Proof.
  intros H. revert acc.
  induction H as [|sd rest Hsd _ IH]; intros acc; cbn [map for_each].
  - now rewrite app_nil_r.
  - rewrite Dataset_to_dict_truthy, Hsd. cbn [bind].
    rewrite IH, <- app_assoc. reflexivity.
Qed.

Lemma Dataset_reloaded_unfold (parent : option json) (ds : Dataset.t) :
  Dataset_reloaded parent ds
  = {| Dataset.dataset := Dataset.dataset ds;
       Dataset.description := Dataset.description ds;
       Dataset.parent := parent;
       Dataset.sota_metrics :=
         if truthy (Dataset.sota_metrics ds)
         then Dataset.sota_metrics ds else JArr [];
       Dataset.sota_rows :=
         if truthy (Dataset.sota_metrics ds) then Dataset.sota_rows ds else [];
       Dataset.subdatasets :=
         map (Dataset_reloaded (Some (Dataset.dataset ds)))
           (Dataset.subdatasets ds);
       Dataset.dataset_links :=
         Dataset.dataset_links ds ++ Dataset.dataset_citations ds;
       Dataset.dataset_citations := [] |}.
Proof.
  destruct ds; reflexivity.
Qed.

Lemma Dataset_init_to_dict (ds : Dataset.t) :
  forall parent,
    Dataset.__init__ (Dataset.to_dict ds) parent
    = Ok (Dataset_reloaded parent ds).
Proof.
  induction ds as [ds IH] using Dataset_ind_subdatasets. intros parent.
  rewrite Dataset_init_unfold, Dataset_to_dict_entries, Dataset_reloaded_unfold.
  unfold Dataset.init_body.
  pose proof (reload_subdatasets (Dataset.dataset ds) _ [] IH) as Hsubs.
  destruct ds as [name descr p metrics rows subs links cites].
  cbn [Dataset.parent Dataset.sota_metrics Dataset.subdatasets
       Dataset.dataset Dataset.description Dataset.sota_rows
       Dataset.dataset_links Dataset.dataset_citations] in *.
  rewrite !get_or_obj.
  destruct p, (truthy metrics) eqn:T, subs as [|sd subs'];
    cbn [py_in getitem has_key assoc app bind String.eqb Ascii.eqb Bool.eqb
         fst snd py_iter];
    rewrite ?get_or_obj;
    cbn [py_in getitem has_key assoc app bind String.eqb Ascii.eqb Bool.eqb
         fst snd py_iter];
    rewrite ?append_rows_to_dict, ?Hsubs, ?append_links_to_dict;
    cbn [bind fst snd app];
    rewrite ?append_links_to_dict; reflexivity.
Qed.

(** X8.  Reloading a serialized dataset never fails.  It yields the dataset
    with its [sota] block kept only under truthy metrics, its citations
    merged into its links, and its subdatasets attached to it. *)
Theorem Dataset_reload (ds : Dataset.t) (parent : option json) :
  Dataset.__init__ (Dataset.to_dict ds) parent
  = Ok (Dataset_reloaded parent ds).
Proof.
  apply Dataset_init_to_dict.
Qed.



(** ** Tasks: serialize, then load *)

Lemma Task_to_dict_truthy (t : Task.t) : truthy (Task.to_dict t) = true.
Proof.
  destruct t; reflexivity.
Qed.

Lemma reload_datasets (dss acc : list Dataset.t) :
  Dataset.append_datasets (JArr (map Dataset.to_dict dss)) acc
  = Ok (acc ++ map (Dataset_reloaded None) dss).
Proof.
  unfold Dataset.append_datasets. cbn [py_iter bind]. revert acc.
  induction dss as [|ds rest IH]; intros acc; cbn [map for_each].
  - now rewrite app_nil_r.
  - rewrite Dataset_to_dict_truthy, Dataset_init_to_dict. cbn [bind].
    rewrite IH, <- app_assoc. reflexivity.
Qed.

Lemma reload_subtasks (name : json) (subs acc : list Task.t) :
  Forall
    (fun st => forall parent,
       Task.__init__ (Task.to_dict st) parent
       = if Task_has_links st then Ok (Task_reloaded parent st)
         else Raise TypeError) subs ->
  for_each (map Task.to_dict subs)
    (fun subt_d subtasks =>
       if truthy subt_d
       then st <- Task.__init__ subt_d (Some name) ;; Ok (subtasks ++ [st])
       else Ok subtasks) acc
  = if forallb Task_has_links subs
    then Ok (acc ++ map (Task_reloaded (Some name)) subs)
    else Raise TypeError.
Proof.
  intros H. revert acc.
  induction H as [|st rest Hst _ IH]; intros acc; cbn [map for_each forallb].
  - now rewrite app_nil_r.
  - rewrite Task_to_dict_truthy, Hst.
    destruct (Task_has_links st); cbn [bind andb]; [|reflexivity].
    rewrite IH, <- app_assoc. reflexivity.
Qed.

Lemma Task_reloaded_unfold (parent : option json) (t : Task.t) :
  Task_reloaded parent t
  = {| Task.task := Task.task t;
       Task.description := Task.description t;
       Task.parent := parent;
       Task.categories := Task.categories t;
       Task.datasets := map (Dataset_reloaded None) (Task.datasets t);
       Task.subtasks :=
         map (Task_reloaded (Some (Task.task t))) (Task.subtasks t);
       Task.synonyms := [];
       Task.source_link := Task.source_link t |}.
Proof.
  destruct t; reflexivity.
Qed.

Lemma Task_has_links_unfold (t : Task.t) :
  Task_has_links t
  = match Task.source_link t with
    | Some _ => forallb Task_has_links (Task.subtasks t)
    | None => false
    end.
Proof.
  destruct t; reflexivity.
Qed.

Lemma Task_init_to_dict (t : Task.t) :
  forall parent,
    Task.__init__ (Task.to_dict t) parent
    = if Task_has_links t then Ok (Task_reloaded parent t)
      else Raise TypeError.
Proof.
  induction t as [t IH] using Task_ind_subtasks. intros parent.
  rewrite Task_init_unfold, Task_reloaded_unfold, Task_has_links_unfold.
  unfold Task.init_body.
  pose proof (reload_subtasks (Task.task t) _ [] IH) as Hsubs.
  destruct t as [name descr p cats dss subs syns sl].
  cbn [Task.to_dict Task.task Task.description Task.parent Task.categories
       Task.datasets Task.subtasks Task.synonyms Task.source_link] in *.
  rewrite !get_or_obj.
  cbn [py_in getitem has_key assoc bind String.eqb Ascii.eqb Bool.eqb py_iter].
  rewrite reload_datasets. cbn [bind app].
  rewrite Hsubs.
  destruct sl as [l|], (forallb Task_has_links subs); cbn [bind app];
    rewrite ?Link_init_to_dict; reflexivity.
Qed.

(** X11.  Reloading a serialized task succeeds exactly when every task of the
    tree has a [source_link]; otherwise the [None] written for the missing
    link makes [Link] raise [TypeError].  What is reloaded has lost its
    synonyms. *)
Theorem Task_reload (t : Task.t) (parent : option json) :
  Task.__init__ (Task.to_dict t) parent
  = if Task_has_links t then Ok (Task_reloaded parent t) else Raise TypeError.
Proof.
  apply Task_init_to_dict.
Qed.

Lemma Task_init_source_link (d : json) (parent : option json) (t : Task.t) :
  Task.__init__ d parent = Ok t ->
  py_in "source_link" d = Ok false ->
  Task.source_link t = None.
Proof.
  intros H Habsent. rewrite Task_init_unfold in H. unfold Task.init_body in H.
  inv_bind H task Htask.
  inv_bind H description Hdescription.
  inv_bind H categories Hcategories.
  inv_bind H has_datasets Hhas_datasets.
  inv_bind H datasets Hdatasets.
  inv_bind H has_subtasks Hhas_subtasks.
  inv_bind H subtasks Hsubtasks.
  inv_bind H has_source_link Hhas.
  inv_bind H source_link Hsl.
  injection H as <-. simpl.
  rewrite Habsent in Hhas. injection Hhas as <-. now injection Hsl as <-.
Qed.

(** X12.  A task loaded from a record without [source_link] serializes to a
    record that [Task] rejects with [TypeError]. *)
Theorem Task_without_source_link_not_reloadable (d : json)
  (parent parent' : option json) (t : Task.t) :
  Task.__init__ d parent = Ok t ->
  py_in "source_link" d = Ok false ->
  Task.__init__ (Task.to_dict t) parent' = Raise TypeError.
Proof.
  intros H Habsent. rewrite Task_init_to_dict, Task_has_links_unfold.
  now rewrite (Task_init_source_link _ _ _ H Habsent).
Qed.

Lemma Task_without_source_link_not_reloadable_witness :
  exists A,
    Task.__init__ Scenario.record_A None = Ok A
    /\ Task.__init__ (Task.to_dict A) None = Raise TypeError.
Proof.
  eexists. split; [reflexivity|].
  apply (Task_without_source_link_not_reloadable Scenario.record_A None None);
    reflexivity.
Defined.





(** ** What the constructors guarantee *)

Lemma json_ind_nested (P : json -> Prop) :
  P JNull ->
  (forall b, P (JBool b)) ->
  (forall n, P (JInt n)) ->
  (forall f, P (JFloat f)) ->
  (forall s, P (JStr s)) ->
  (forall l, Forall P l -> P (JArr l)) ->
  (forall kvs, Forall (fun kv => P (snd kv)) kvs -> P (JObj kvs)) ->
  forall v, P v.
Proof.
  intros Hnull Hbool Hint Hfloat Hstr Harr Hobj. fix IH 1.
  intros [|b|n|f|s|l|kvs];
    [apply Hnull|apply Hbool|apply Hint|apply Hfloat|apply Hstr| |].
  - apply Harr. induction l as [|x rest IHl]; constructor; [apply IH|exact IHl].
  - apply Hobj. induction kvs as [|[k x] rest IHl]; constructor;
      [apply IH|exact IHl].
Qed.

Lemma assoc_In {V : Type} (k : string) (kvs : list (string * V)) (v : V) :
  assoc k kvs = Some v -> exists k', In (k', v) kvs.
Proof.
  induction kvs as [|[k' x] rest IH]; simpl; [discriminate|].
  destruct (String.eqb k k').
  - intros [= ->]. exists k'. now left.
  - intros H. destruct (IH H) as [k'' Hin]. exists k''. now right.
Qed.

(** The loop that builds owned sub-objects keeps a property [L] of the
    accumulated list when every item it accepts yields an object with
    [L]. *)
Lemma for_each_build {T : Type} (init : json -> result T) (L : T -> Prop)
  (items : list json) :
  Forall (fun x => forall o, init x = Ok o -> L o) items ->
  forall acc r,
    for_each items
      (fun x acc => if truthy x then o <- init x ;; Ok (acc ++ [o]) else Ok acc)
      acc = Ok r ->
    Forall L acc -> Forall L r.
Proof.
  induction 1 as [|x rest Hx _ IH]; intros acc r Hrun Hacc; simpl in Hrun.
  - now injection Hrun as <-.
  - inv_bind Hrun acc' Hstep. apply (IH _ _ Hrun).
    destruct (truthy x).
    + inv_bind Hstep o Ho. injection Hstep as <-.
      apply Forall_app. split; [exact Hacc|]. constructor; [|constructor].
      now apply Hx.
    + now injection Hstep as <-.
Qed.

Lemma Dataset_init_linked_items (v : json) :
  (forall parent ds, Dataset.__init__ v parent = Ok ds -> Dataset_linked parent ds)
  /\ (forall items, py_iter v = Ok items ->
      Forall
        (fun x => forall parent ds,
           Dataset.__init__ x parent = Ok ds -> Dataset_linked parent ds)
        items).
Proof.
  induction v as [|b|n|f|s|l IH|kvs IH] using json_ind_nested;
    (split; [intros parent ds H|intros items H]); try discriminate H.
  - now rewrite Dataset_init_str in H.
  - injection H as <-. apply Forall_forall. intros x Hin parent ds H.
    apply in_map_iff in Hin. destruct Hin as (c & <- & _).
    now rewrite Dataset_init_str in H.
  - simpl in H. destruct (existsb (is_str "subdataset") l); discriminate H.
  - injection H as <-. apply Forall_forall. intros x Hin.
    rewrite Forall_forall in IH. apply (IH x Hin).
  - rewrite Dataset_init_unfold in H. unfold Dataset.init_body in H.
    inv_bind H has_sub Hhas_sub.
    inv_bind H dataset Hdataset.
    inv_bind H description Hdescription.
    inv_bind H has_sota Hhas_sota.
    inv_bind H sota Hsota.
    inv_bind H has_subdatasets Hhas_subdatasets.
    inv_bind H subdatasets Hsubdatasets.
    inv_bind H has_links Hhas_links.
    inv_bind H links Hlinks.
    inv_bind H has_citations Hhas_citations.
    inv_bind H merged Hmerged.
    injection H as <-.
    constructor; [reflexivity|reflexivity|]. simpl.
    destruct has_subdatasets; [|now injection Hsubdatasets as <-].
    inv_bind Hsubdatasets v Hv. inv_bind Hsubdatasets items Hitems.
    destruct (getitem_Ok_obj _ _ _ Hv) as (kvs' & [= <-] & Hassoc).
    destruct (assoc_In _ _ _ Hassoc) as [k Hin].
    rewrite Forall_forall in IH. destruct (IH _ Hin) as [_ Hsub].
    simpl in Hsub. specialize (Hsub _ Hitems).
    refine (for_each_build (fun x => Dataset.__init__ x (Some dataset)) _ items
              _ [] _ Hsubdatasets (Forall_nil _)).
    revert Hsub. apply Forall_impl. intros x Hx o. apply Hx.
  - injection H as <-. apply Forall_forall. intros x Hin parent ds H.
    apply in_map_iff in Hin. destruct Hin as (c & <- & _).
    now rewrite Dataset_init_str in H.
Qed.

(** X7.  Every dataset [Dataset] builds has the owner it was given, stores no
    citations, and holds subdatasets that refer to it by name, at every
    depth. *)
Theorem Dataset_init_linked (d : json) (parent : option json) (ds : Dataset.t) :
  Dataset.__init__ d parent = Ok ds -> Dataset_linked parent ds.
Proof.
  apply Dataset_init_linked_items.
Qed.

Lemma Dataset_init_linked_witness :
  exists ds,
    Dataset.__init__ Sample.dataset_with_citations None = Ok ds
    /\ Dataset_linked None ds.
Proof.
  eexists. split; [reflexivity|].
  apply (Dataset_init_linked Sample.dataset_with_citations). reflexivity.
Defined.

Lemma Task_init_linked_items (v : json) :
  (forall parent t, Task.__init__ v parent = Ok t -> Task_linked parent t)
  /\ (forall items, py_iter v = Ok items ->
      Forall
        (fun x => forall parent t,
           Task.__init__ x parent = Ok t -> Task_linked parent t)
        items).
Proof.
  induction v as [|b|n|f|s|l IH|kvs IH] using json_ind_nested;
    (split; [intros parent t H|intros items H]); try discriminate H.
  - injection H as <-. apply Forall_forall. intros x Hin parent t H.
    apply in_map_iff in Hin. destruct Hin as (c & <- & _). discriminate H.
  - injection H as <-. apply Forall_forall. intros x Hin.
    rewrite Forall_forall in IH. apply (IH x Hin).
  - rewrite Task_init_unfold in H. unfold Task.init_body in H.
    inv_bind H task Htask.
    inv_bind H description Hdescription.
    inv_bind H categories Hcategories.
    inv_bind H has_datasets Hhas_datasets.
    inv_bind H datasets Hdatasets.
    inv_bind H has_subtasks Hhas_subtasks.
    inv_bind H subtasks Hsubtasks.
    inv_bind H has_source_link Hhas.
    inv_bind H source_link Hsl.
    injection H as <-.
    constructor; [reflexivity|reflexivity| |]; simpl.
    + destruct has_datasets; [|now injection Hdatasets as <-].
      inv_bind Hdatasets v Hv. unfold Dataset.append_datasets in Hdatasets.
      inv_bind Hdatasets items Hitems.
      refine (for_each_build (fun x => Dataset.__init__ x None) _ items
                _ [] _ Hdatasets (Forall_nil _)).
      apply Forall_forall. intros x _ o. apply Dataset_init_linked_items.
    + destruct has_subtasks; [|now injection Hsubtasks as <-].
      inv_bind Hsubtasks v Hv. inv_bind Hsubtasks items Hitems.
      destruct (getitem_Ok_obj _ _ _ Hv) as (kvs' & [= <-] & Hassoc).
      destruct (assoc_In _ _ _ Hassoc) as [k Hin].
      rewrite Forall_forall in IH. destruct (IH _ Hin) as [_ Hsub].
      simpl in Hsub. specialize (Hsub _ Hitems).
      refine (for_each_build (fun x => Task.__init__ x (Some task)) _ items
                _ [] _ Hsubtasks (Forall_nil _)).
      revert Hsub. apply Forall_impl. intros x Hx o. apply Hx.
  - injection H as <-. apply Forall_forall. intros x Hin parent t H.
    apply in_map_iff in Hin. destruct Hin as (c & <- & _). discriminate H.
Qed.

(** X10.  Every task [Task] builds has the owner it was given and no synonyms;
    its datasets have no owner, its subtasks refer to it by name, and the
    same holds at every depth. *)
Theorem Task_init_linked (d : json) (parent : option json) (t : Task.t) :
  Task.__init__ d parent = Ok t -> Task_linked parent t.
Proof.
  apply Task_init_linked_items.
Qed.

Lemma Task_init_linked_witness :
  exists t,
    Task.__init__ Sample.task_with_links None = Ok t /\ Task_linked None t.
Proof.
  eexists. split; [reflexivity|].
  apply (Task_init_linked Sample.task_with_links). reflexivity.
Defined.

(** ** Dataset names *)

(** X6.  A dataset under a task is serialized under the key [dataset], a
    nested one under [subdataset]; the other key is never emitted. *)
Theorem Dataset_to_dict_name_key (ds : Dataset.t) :
  match Dataset.parent ds with
  | None =>
      getitem (Dataset.to_dict ds) "dataset" = Ok (Dataset.dataset ds)
      /\ py_in "subdataset" (Dataset.to_dict ds) = Ok false
  | Some _ =>
      getitem (Dataset.to_dict ds) "subdataset" = Ok (Dataset.dataset ds)
      /\ py_in "dataset" (Dataset.to_dict ds) = Ok false
  end.
Proof.
  rewrite Dataset_to_dict_entries.
  destruct (Dataset.parent ds), (truthy (Dataset.sota_metrics ds)),
    (Dataset.subdatasets ds); split; reflexivity.
Qed.

(** X5.  [Dataset] takes its name from [subdataset] when the record has that
    key, whatever the nesting, and from [dataset] otherwise; a record with
    neither key raises [KeyError]. *)
Theorem Dataset_init_name (kvs : list (string * json)) (parent : option json) :
  match assoc "subdataset" kvs, assoc "dataset" kvs with
  | Some name, _ | None, Some name =>
      forall ds, Dataset.__init__ (JObj kvs) parent = Ok ds ->
                 Dataset.dataset ds = name
  | None, None => Dataset.__init__ (JObj kvs) parent = Raise KeyError
  end.
Proof.
  rewrite Dataset_init_unfold. unfold Dataset.init_body.
  cbn [py_in getitem bind]. unfold has_key.
  destruct (assoc "subdataset" kvs) as [name|] eqn:Es;
    [|destruct (assoc "dataset" kvs) as [name|] eqn:Ed];
    cbn [bind]; try reflexivity; intros ds H.
  all: repeat (apply bind_Ok in H; destruct H as (? & ? & H));
    now injection H as <-.
Qed.

(** ** The registry as a dict *)

Lemma assoc_setitem_same {V : Type} (k : string) (v : V)
  (o : list (string * V)) :
  assoc k (setitem k v o) = Some v.
Proof.
  induction o as [|[k' v'] rest IH]; simpl.
  - now rewrite String.eqb_refl.
  - destruct (String.eqb k k') eqn:E; simpl; rewrite E; [reflexivity|exact IH].
Qed.

Lemma assoc_setitem_other {V : Type} (k k0 : string) (v : V)
  (o : list (string * V)) :
  k0 <> k -> assoc k0 (setitem k v o) = assoc k0 o.
Proof.
  intros Hne. induction o as [|[k' v'] rest IH]; simpl.
  - apply String.eqb_neq in Hne. now rewrite Hne.
  - destruct (String.eqb k k') eqn:E; simpl.
    + apply String.eqb_eq in E. subst k'.
      apply String.eqb_neq in Hne. now rewrite Hne.
    + destruct (String.eqb k0 k'); [reflexivity|exact IH].
Qed.

Lemma keys_setitem {V : Type} (k : string) (v : V) (o : list (string * V)) :
  map fst (setitem k v o)
  = if has_key k o then map fst o else map fst o ++ [k].
Proof.
  unfold has_key. induction o as [|[k' v'] rest IH]; simpl; [reflexivity|].
  destruct (String.eqb k k') eqn:E; simpl; [reflexivity|].
  rewrite IH. destruct (assoc k rest); reflexivity.
Qed.

Lemma has_key_In {V : Type} (k : string) (o : list (string * V)) :
  has_key k o = true <-> In k (map fst o).
Proof.
  unfold has_key. induction o as [|[k' v'] rest IH]; simpl.
  - split; [discriminate|intros []].
  - destruct (String.eqb k k') eqn:E.
    + apply String.eqb_eq in E. split; auto.
    + apply String.eqb_neq in E. rewrite IH. split; [auto|].
      intros [H|H]; [congruence|exact H].
Qed.

(** X14.  After [add_task name task], [get_task name] returns [task], even when
    some subtask carries the same name, and every other top-level name is
    bound as before. *)
Theorem get_task_add_task (name : string) (task : Task.t)
  (tasks : TaskDb.registry) :
  TaskDb.get_task name (TaskDb.add_task name task tasks) = Some task
  /\ (forall other, other <> name ->
      assoc other (TaskDb.add_task name task tasks) = assoc other tasks).
Proof.
  unfold TaskDb.get_task, TaskDb.add_task, has_key. split.
  - now rewrite assoc_setitem_same.
  - intros other Hne. now apply assoc_setitem_other.
Qed.

(** X15.  [add_task] keeps the registry a dict in insertion order: a name
    already bound keeps its place and the list of names is unchanged, a new
    name goes last; names stay distinct. *)
Theorem add_task_keys (name : string) (task : Task.t)
  (tasks : TaskDb.registry) :
  map fst (TaskDb.add_task name task tasks)
  = (if has_key name tasks then map fst tasks else map fst tasks ++ [name])
  /\ (NoDup (map fst tasks) ->
      NoDup (map fst (TaskDb.add_task name task tasks))).
Proof.
  unfold TaskDb.add_task. rewrite keys_setitem. split; [reflexivity|].
  intros Hnd. destruct (has_key name tasks) eqn:E; [exact Hnd|].
  apply NoDup_app; [exact Hnd|repeat constructor; intros []|].
  intros k Hin [<-|[]].
  apply has_key_In in Hin. congruence.
Qed.

Lemma setitem_setitem {V : Type} (k : string) (v1 v2 : V)
  (o : list (string * V)) :
  setitem k v2 (setitem k v1 o) = setitem k v2 o.
Proof.
  induction o as [|[k' v'] rest IH]; simpl.
  - now rewrite String.eqb_refl.
  - destruct (String.eqb k k') eqn:E; simpl; rewrite E; [reflexivity|].
    now rewrite IH.
Qed.

(** X16.  Registering a name twice leaves one entry, the later task: the
    earlier task and its subtree are gone. *)
Theorem add_task_later_wins (name : string) (first later : Task.t)
  (tasks : TaskDb.registry) :
  TaskDb.add_task name later (TaskDb.add_task name first tasks)
  = TaskDb.add_task name later tasks.
Proof.
  apply setitem_setitem.
Qed.

(** ** Loading synonyms *)





Lemma load_rows_long (rows : list (list string)) :
  forall tasks,
    (forall row, In row rows ->
       (2 <= List.length row)%nat
       \/ exists name, row = [name] /\ resolvable name tasks = false) ->
    exists tasks', for_each rows TaskDb.load_row tasks = Ok tasks'.
Proof.
  induction rows as [|row rest IH]; intros tasks Hrows; simpl.
  - now exists tasks.
  - assert (exists tasks1, TaskDb.load_row row tasks = Ok tasks1) as [tasks1 E].
    { destruct (Hrows row (or_introl eq_refl)) as [Hlen|(name & -> & R)].
      - destruct row as [|name [|synonym more]]; simpl in Hlen; try lia.
        unfold TaskDb.load_row. simpl.
        destruct (TaskDb.get_task name tasks); eexists; reflexivity.
      - unfold TaskDb.load_row, resolvable in *. simpl.
        destruct (TaskDb.get_task name tasks); [discriminate R|].
        eexists; reflexivity. }
    rewrite E. simpl. apply IH. intros r Hin.
    pose proof (load_row_outcome row tasks) as O. rewrite E in O.
    destruct (Hrows r (or_intror Hin)) as [Hlen|(name & -> & R)]; [now left|].
    right. exists name. now rewrite O.
Qed.

(** X18.  [load_synonyms] returns normally whenever every row has at least two
    fields or is a single field that names no task. *)
Theorem load_synonyms_total (csv_files : list (list (list string)))
  (tasks : TaskDb.registry) :
  (forall row, In row (List.concat csv_files) ->
     (2 <= List.length row)%nat
     \/ exists name, row = [name] /\ TaskDb.get_task name tasks = None) ->
  exists tasks', TaskDb.load_synonyms csv_files tasks = Ok tasks'.
Proof.
  intros Hrows. rewrite load_synonyms_concat. apply load_rows_long.
  intros row Hin. destruct (Hrows row Hin) as [Hlen|(name & -> & R)];
    [now left|right].
  exists name. unfold resolvable. now rewrite R.
Qed.

Lemma load_synonyms_total_witness :
  exists tasks',
    TaskDb.load_synonyms [[["E"; "e"; "ignored"]]; [["unknown"]; ["E"; "f"]]]
      (TaskDb.add_task "E" (Scenario.leaf "E") [])
    = Ok tasks'.
Proof.
  apply load_synonyms_total.
  intros row [<-|[<-|[<-|[]]]]; simpl;
    [left; lia|right; exists "unknown"; now split|left; lia].
Defined.

Lemma load_rows_unknown (rows : list (list string)) (tasks : TaskDb.registry) :
  (forall row, In row rows ->
     exists name rest, row = name :: rest /\ TaskDb.get_task name tasks = None) ->
  for_each rows TaskDb.load_row tasks = Ok tasks.
Proof.
  induction rows as [|row rest IH]; intros Hrows; simpl; [reflexivity|].
  destruct (Hrows row (or_introl eq_refl)) as (name & more & -> & Hnone).
  unfold TaskDb.load_row at 1. simpl. rewrite Hnone. simpl.
  apply IH. intros r Hin. apply Hrows. now right.
Qed.

(** X19.  Rows whose first field names no task, top-level or direct subtask,
    are dropped: [load_synonyms] returns the registry unchanged and raises
    nothing, whatever the number of fields after the first. *)
Theorem load_synonyms_unknown_names (csv_files : list (list (list string)))
  (tasks : TaskDb.registry) :
  (forall row, In row (List.concat csv_files) ->
     exists name rest, row = name :: rest /\ TaskDb.get_task name tasks = None) ->
  TaskDb.load_synonyms csv_files tasks = Ok tasks.
Proof.
  intros Hrows. rewrite load_synonyms_concat. now apply load_rows_unknown.
Qed.

Lemma load_synonyms_unknown_names_witness :
  TaskDb.load_synonyms [[["G"; "g"]; ["H"]]]
    (TaskDb.add_task "E" (Scenario.leaf "E") [])
  = Ok (TaskDb.add_task "E" (Scenario.leaf "E") []).
Proof.
  apply load_synonyms_unknown_names.
  intros row [<-|[<-|[]]]; eexists; eexists; split; reflexivity.
Defined.

Section OtherNames.

Variable f : Task.t -> Task.t.
Hypothesis f_task : forall t, Task.task (f t) = Task.task t.
Hypothesis f_subtasks : forall t, Task.subtasks (f t) = Task.subtasks t.

Variables x name : string.
Hypothesis x_other : x <> name.






End OtherNames.






Lemma without_synonyms_unfold (t : Task.t) :
  without_synonyms t
  = {| Task.task := Task.task t;
       Task.description := Task.description t;
       Task.parent := Task.parent t;
       Task.categories := Task.categories t;
       Task.datasets := Task.datasets t;
       Task.subtasks := map without_synonyms (Task.subtasks t);
       Task.synonyms := [];
       Task.source_link := Task.source_link t |}.
Proof.
  destruct t; reflexivity.
Qed.

Lemma without_synonyms_append (synonym : string) (t : Task.t) :
  without_synonyms (Task.append_synonym synonym t) = without_synonyms t.
Proof.
  destruct t; reflexivity.
Qed.

Lemma without_synonyms_update_subtask (name synonym : string)
  (subtasks : list Task.t) :
  map without_synonyms
    (TaskDb.update_subtask name (Task.append_synonym synonym) subtasks)
  = map without_synonyms subtasks.
Proof.
  induction subtasks as [|st rest IH]; [reflexivity|].
  cbn [TaskDb.update_subtask].
  destruct (is_str name (Task.task st)); cbn [map].
  - now rewrite without_synonyms_append.
  - now rewrite IH.
Qed.

Lemma without_synonyms_update_task (name synonym : string)
  (tasks : TaskDb.registry) :
  map without_synonyms
    (TaskDb.values
       (TaskDb.update_task name (Task.append_synonym synonym) tasks))
  = map without_synonyms (TaskDb.values tasks).
Proof.
  unfold TaskDb.update_task. destruct (has_key name tasks).
  - induction tasks as [|[k t] rest IH]; [reflexivity|].
    cbn [TaskDb.update_key].
    destruct (String.eqb name k); cbn [map TaskDb.values snd].
    + now rewrite without_synonyms_append.
    + f_equal. exact IH.
  - induction tasks as [|[k t] rest IH]; [reflexivity|].
    cbn [TaskDb.update_scan].
    destruct (TaskDb.scan_subtasks name (Task.subtasks t));
      cbn [map TaskDb.values snd].
    + f_equal. rewrite !without_synonyms_unfold.
      destruct t. cbn [Task.set_subtasks Task.task Task.description
        Task.parent Task.categories Task.datasets Task.subtasks Task.synonyms
        Task.source_link].
      now rewrite without_synonyms_update_subtask.
    + f_equal. exact IH.
Qed.

Lemma load_rows_without_synonyms (rows : list (list string)) :
  forall tasks tasks',
    for_each rows TaskDb.load_row tasks = Ok tasks' ->
    map without_synonyms (TaskDb.values tasks')
    = map without_synonyms (TaskDb.values tasks).
Proof.
  induction rows as [|row rest IH]; intros tasks tasks' H; simpl in H.
  - now injection H as <-.
  - inv_bind H tasks1 Hrow. rewrite (IH _ _ H).
    unfold TaskDb.load_row in Hrow. inv_bind Hrow name Hname.
    destruct (TaskDb.get_task name tasks).
    + inv_bind Hrow synonym Hsyn. injection Hrow as <-.
      apply without_synonyms_update_task.
    + now injection Hrow as <-.
Qed.

(** X21.  [load_synonyms] touches nothing but synonym lists: with the synonyms
    emptied, the registry's task trees are the same before and after. *)
Theorem load_synonyms_only_synonyms (csv_files : list (list (list string)))
  (tasks tasks' : TaskDb.registry) :
  TaskDb.load_synonyms csv_files tasks = Ok tasks' ->
  map without_synonyms (TaskDb.values tasks')
  = map without_synonyms (TaskDb.values tasks).
Proof.
  rewrite load_synonyms_concat. apply load_rows_without_synonyms.
Qed.

Lemma load_synonyms_only_synonyms_witness :
  exists tasks',
    TaskDb.load_synonyms [[["E"; "e"]]]
      (TaskDb.add_task "E" (Scenario.leaf "E") []) = Ok tasks'
    /\ map without_synonyms (TaskDb.values tasks') = [Scenario.leaf "E"].
Proof.
  eexists. split; [reflexivity|].
  apply (load_synonyms_only_synonyms [[["E"; "e"]]]
           (TaskDb.add_task "E" (Scenario.leaf "E") [])).
  reflexivity.
Defined.

(** ** datasets_with_sota, in general *)

Lemma fold_datasets_from_first (ds : list Dataset.t) (out : list Dataset.t) :
  fold_left
    (fun '(add, out) d =>
       let add := check_dataset add d in
       let out := if add then out ++ [d] else out in
       (add, out))
    ds (false, out)
  = (existsb spec_dataset_has_sota ds, out ++ from_first_sota ds).
Proof.
  revert out. induction ds as [|d rest IH]; intros out; simpl.
  - now rewrite app_nil_r.
  - rewrite check_dataset_spec. simpl.
    destruct (spec_dataset_has_sota d); simpl.
    + rewrite fold_datasets_flag_set, <- app_assoc. reflexivity.
    + apply IH.
Qed.

Lemma find_sota_datasets_spec (t : Task.t) :
  forall out,
    find_sota_datasets t out
    = out ++ flat_map (fun t => from_first_sota (Task.datasets t))
               (spec_preorder t).
Proof.
  induction t as [t IH] using Task_ind_subtasks. intros out.
  rewrite find_sota_datasets_unfold, spec_preorder_unfold,
    fold_datasets_from_first.
  cbn [snd flat_map]. rewrite app_assoc.
  generalize (out ++ from_first_sota (Task.datasets t)). clear out.
  induction IH as [|st rest Hst _ IHrest]; intros out; simpl.
  - now rewrite app_nil_r.
  - rewrite Hst, IHrest, flat_map_app. now rewrite app_assoc.
Qed.

Lemma datasets_with_sota_spec (tasks : TaskDb.registry) :
  TaskDb.datasets_with_sota tasks
  = flat_map (fun t => from_first_sota (Task.datasets t))
      (flat_map spec_preorder (TaskDb.values tasks)).
Proof.
  unfold TaskDb.datasets_with_sota.
  rewrite <- (app_nil_l (flat_map _ (flat_map _ _))).
  generalize (@nil Dataset.t). induction (TaskDb.values tasks) as [|t rest IH];
    intros out; simpl.
  - now rewrite app_nil_r.
  - rewrite find_sota_datasets_spec, IH, flat_map_app. now rewrite app_assoc.
Qed.

(** X22.  [datasets_with_sota] lists, for each task of the registry's trees in
    pre-order, that task's datasets from the first one that passes the
    per-dataset check to the last one, passing or not. *)
Theorem datasets_with_sota_from_first (tasks : TaskDb.registry) :
  TaskDb.datasets_with_sota tasks
  = flat_map (fun t => from_first_sota (Task.datasets t))
      (flat_map spec_preorder (TaskDb.values tasks)).
Proof.
  apply datasets_with_sota_spec.
Qed.

Lemma from_first_sota_complete (ds : list Dataset.t) (d : Dataset.t) :
  In d ds -> spec_dataset_has_sota d = true -> In d (from_first_sota ds).
Proof.
  induction ds as [|d' rest IH]; intros Hin Hd; [destruct Hin|]. simpl.
  destruct (spec_dataset_has_sota d') eqn:E; [exact Hin|].
  destruct Hin as [->|Hin]; [congruence|now apply IH].
Qed.

Lemma from_first_sota_sound (ds : list Dataset.t) (d : Dataset.t) :
  In d (from_first_sota ds) ->
  In d ds /\ existsb spec_dataset_has_sota ds = true.
Proof.
  induction ds as [|d' rest IH]; simpl; [intros []|].
  destruct (spec_dataset_has_sota d') eqn:E; simpl.
  - auto.
  - intros Hin. destruct (IH Hin). auto.
Qed.

(** X23.  No dataset with rows is missed: a dataset that passes the per-dataset
    check and is owned by any task of the registry's trees is in the result
    of [datasets_with_sota]. *)
Theorem datasets_with_sota_complete (tasks : TaskDb.registry)
  (t : Task.t) (d : Dataset.t) :
  In t (flat_map spec_preorder (TaskDb.values tasks)) ->
  In d (Task.datasets t) ->
  spec_dataset_has_sota d = true ->
  In d (TaskDb.datasets_with_sota tasks).
Proof.
  intros Ht Hd Hsota. rewrite datasets_with_sota_spec.
  apply in_flat_map. exists t. split; [exact Ht|].
  now apply from_first_sota_complete.
Qed.

(** X24.  Every dataset [datasets_with_sota] returns is owned by a task that
    [tasks_with_sota] returns. *)
Theorem datasets_with_sota_owner (tasks : TaskDb.registry) (d : Dataset.t) :
  In d (TaskDb.datasets_with_sota tasks) ->
  exists t, In t (TaskDb.tasks_with_sota tasks) /\ In d (Task.datasets t).
Proof.
  rewrite datasets_with_sota_spec, tasks_with_sota_spec.
  unfold spec_tasks_with_sota. intros Hin.
  apply in_flat_map in Hin. destruct Hin as (t & Ht & Hd).
  apply from_first_sota_sound in Hd. destruct Hd as [Hd Hsota].
  exists t. split; [|exact Hd].
  apply filter_In. split; [exact Ht|exact Hsota].
Qed.

Lemma from_first_sota_single (ds : list Dataset.t) :
  (List.length ds <= 1)%nat ->
  from_first_sota ds = filter spec_dataset_has_sota ds.
Proof.
  destruct ds as [|d [|d' rest]]; simpl; intros Hlen; try lia; [reflexivity|].
  destruct (spec_dataset_has_sota d); reflexivity.
Qed.

Lemma filter_flat_map {A B : Type} (p : B -> bool) (g : A -> list B)
  (l : list A) :
  filter p (flat_map g l) = flat_map (fun x => filter p (g x)) l.
Proof.
  induction l as [|x rest IH]; simpl; [reflexivity|].
  now rewrite filter_app, IH.
Qed.

(** X25.  When no task of the registry's trees owns more than one dataset,
    [datasets_with_sota] returns exactly the datasets that pass the
    per-dataset check. *)
Theorem datasets_with_sota_single_dataset (tasks : TaskDb.registry) :
  (forall t, In t (flat_map spec_preorder (TaskDb.values tasks)) ->
     (List.length (Task.datasets t) <= 1)%nat) ->
  TaskDb.datasets_with_sota tasks
  = filter spec_dataset_has_sota
      (flat_map Task.datasets (flat_map spec_preorder (TaskDb.values tasks))).
Proof.
  intros Hsingle. rewrite datasets_with_sota_spec, filter_flat_map.
  induction (flat_map spec_preorder (TaskDb.values tasks)) as [|t rest IH];
    simpl; [reflexivity|].
  rewrite from_first_sota_single by (apply Hsingle; now left).
  rewrite IH; [reflexivity|]. intros t' Hin. apply Hsingle. now right.
Qed.

Lemma datasets_with_sota_complete_witness :
  exists B d,
    Task.__init__ Scenario.record_B None = Ok B
    /\ Task.datasets B = [d]
    /\ In d (TaskDb.datasets_with_sota (TaskDb.add_task "B" B [])).
Proof.
  eexists. eexists. split; [reflexivity|]. split; [reflexivity|].
  eapply datasets_with_sota_complete.
  - simpl. left. reflexivity.
  - hnf. left. reflexivity.
  - reflexivity.
Defined.

Lemma datasets_with_sota_owner_witness :
  exists T d1 d2,
    Task.__init__ Scenario.record_T None = Ok T
    /\ Task.datasets T = [d1; d2]
    /\ exists t,
         In t (TaskDb.tasks_with_sota (TaskDb.add_task "T" T []))
         /\ In d2 (Task.datasets t).
Proof.
  eexists. eexists. eexists.
  split; [reflexivity|]. split; [reflexivity|].
  apply datasets_with_sota_owner.
  vm_compute. right. left. reflexivity.
Defined.

Lemma datasets_with_sota_single_dataset_witness :
  exists B C,
    Task.__init__ Scenario.record_B None = Ok B
    /\ Task.__init__ Scenario.record_C None = Ok C
    /\ TaskDb.datasets_with_sota
         (TaskDb.add_task "C" C (TaskDb.add_task "B" B []))
       = filter spec_dataset_has_sota
           (flat_map Task.datasets
              (flat_map spec_preorder
                 (TaskDb.values
                    (TaskDb.add_task "C" C (TaskDb.add_task "B" B []))))).
Proof.
  eexists. eexists. split; [reflexivity|]. split; [reflexivity|].
  apply datasets_with_sota_single_dataset.
  simpl. intros t [<-|[<-|[<-|[]]]]; simpl; lia.
Defined.

(** ** The depth the queries look at *)

(** X26.  Rows below the first level of subdatasets are not seen: a task whose
    datasets and whose datasets' direct subdatasets hold no rows is never
    returned by [tasks_with_sota], whatever deeper subdatasets hold. *)
Theorem tasks_with_sota_depth_limit (tasks : TaskDb.registry) (t : Task.t) :
  (forall d, In d (Task.datasets t) ->
     Dataset.sota_rows d = []
     /\ forall sd, In sd (Dataset.subdatasets d) -> Dataset.sota_rows sd = []) ->
  ~ In t (TaskDb.tasks_with_sota tasks).
Proof.
  intros Hempty Hin. rewrite tasks_with_sota_spec in Hin.
  apply filter_In in Hin. destruct Hin as [_ Hsota].
  apply existsb_exists in Hsota. destruct Hsota as (d & Hd & Hcheck).
  destruct (Hempty d Hd) as [Hrows Hsubs].
  unfold spec_dataset_has_sota in Hcheck. rewrite Hrows in Hcheck.
  simpl in Hcheck. apply existsb_exists in Hcheck.
  destruct Hcheck as (sd & Hsd & Hsdrows).
  rewrite (Hsubs sd Hsd) in Hsdrows. discriminate.
Qed.

Lemma tasks_with_sota_depth_limit_witness :
  exists t a b c,
    Task.__init__ Scenario.record_Deep None = Ok t
    /\ Task.datasets t = [a]
    /\ Dataset.subdatasets a = [b]
    /\ Dataset.subdatasets b = [c]
    /\ Dataset.sota_rows c <> []
    /\ ~ In t (TaskDb.tasks_with_sota (TaskDb.add_task "Deep" t [])).
Proof.
  eexists. eexists. eexists. eexists.
  split; [reflexivity|]. split; [reflexivity|]. split; [reflexivity|].
  split; [reflexivity|]. split; [discriminate|].
  apply tasks_with_sota_depth_limit. simpl.
  intros d [<-|[]]. split; [reflexivity|]. simpl.
  intros sd [<-|[]]. reflexivity.
Defined.

(** ** Precision and recall, when they are defined *)

Lemma len_nonneg {A : Type} (s : list A) : (0 <= EvalAll.len s)%Z.
Proof.
  unfold EvalAll.len. lia.
Qed.

Lemma len_zero {A : Type} (s : list A) : EvalAll.len s = 0%Z <-> s = [].
Proof.
  unfold EvalAll.len. destruct s; simpl; split; try reflexivity;
    try discriminate; lia.
Qed.

Lemma ratio_bounds (a d : Z) :
  (0 <= a <= d)%Z -> (0 < d)%Z ->
  (0 <= inject_Z a / inject_Z d)%Q /\ (inject_Z a / inject_Z d <= 1)%Q.
Proof.
  intros Ha Hd. destruct d as [|p|p]; try lia.
  unfold Qle, Qdiv, Qmult, Qinv, inject_Z. simpl. split; lia.
Qed.

Lemma ratio_zero (a d : Z) :
  (0 < d)%Z -> Qeq_bool (inject_Z a / inject_Z d) 0 = true ->
  (0 == inject_Z a / inject_Z d)%Q.
Proof.
  intros _ H. apply Qeq_bool_iff in H. now rewrite H.
Qed.

Lemma precision_recall_values (A : Type) (tp fn fp : list A) :
  tp <> [] \/ fn <> [] ->
  exists prec recal,
    EvalAll.precision_recall tp fn fp = Ok (prec, recal)
    /\ (prec ==
        if (EvalAll.len tp + EvalAll.len fp =? 0)%Z then 0
        else inject_Z (EvalAll.len tp)
             / inject_Z (EvalAll.len tp + EvalAll.len fp))%Q
    /\ (recal ==
        inject_Z (EvalAll.len tp) / inject_Z (EvalAll.len tp + EvalAll.len fn))%Q
    /\ (0 <= prec)%Q /\ (prec <= 1)%Q
    /\ (0 <= recal)%Q /\ (recal <= 1)%Q.
Proof.
  intros Hsome.
  pose proof (len_nonneg tp) as Htp. pose proof (len_nonneg fn) as Hfn.
  pose proof (len_nonneg fp) as Hfp.
  assert (Hden : (0 < EvalAll.len tp + EvalAll.len fn)%Z).
  { destruct Hsome as [H|H].
    - assert (EvalAll.len tp <> 0%Z) by (now rewrite len_zero). lia.
    - assert (EvalAll.len fn <> 0%Z) by (now rewrite len_zero). lia. }
  unfold EvalAll.precision_recall, EvalAll.truediv.
  destruct (EvalAll.len tp + EvalAll.len fn =? 0)%Z eqn:E; [lia|].
  destruct (ratio_bounds (EvalAll.len tp) (EvalAll.len tp + EvalAll.len fn))
    as [Rlo Rhi]; [lia|lia|].
  assert (Hrec : exists recal,
    (if negb (Qeq_bool (inject_Z (EvalAll.len tp)
                        / inject_Z (EvalAll.len tp + EvalAll.len fn)) 0)
     then Ok (inject_Z (EvalAll.len tp)
              / inject_Z (EvalAll.len tp + EvalAll.len fn))%Q
     else Ok 0%Q) = Ok recal
    /\ (recal == inject_Z (EvalAll.len tp)
                 / inject_Z (EvalAll.len tp + EvalAll.len fn))%Q
    /\ (0 <= recal)%Q /\ (recal <= 1)%Q).
  { destruct (Qeq_bool _ 0) eqn:G; simpl; eexists;
      (split; [reflexivity|]).
    - split; [now apply ratio_zero|]. split; discriminate.
    - split; [reflexivity|]. split; assumption. }
  destruct Hrec as (recal & Hrun & Hrecal & Hlo & Hhi).
  destruct (EvalAll.len tp + EvalAll.len fp =? 0)%Z eqn:P; cbn [negb bind].
  - rewrite Hrun. cbn [bind]. exists 0%Q, recal.
    split; [reflexivity|]. split; [reflexivity|]. split; [exact Hrecal|].
    split; [discriminate|]. split; [discriminate|]. split; assumption.
  - destruct (ratio_bounds (EvalAll.len tp) (EvalAll.len tp + EvalAll.len fp))
      as [Plo Phi]; [lia|lia|].
    rewrite Hrun. cbn [bind]. eexists. exists recal.
    split; [reflexivity|]. split; [reflexivity|]. split; [exact Hrecal|].
    split; [exact Plo|]. split; [exact Phi|]. split; assumption.
Qed.

Lemma precision_recall_total (A : Type) (tp fn fp : list A) :
  tp <> [] \/ fn <> [] ->
  exists prec recal, EvalAll.precision_recall tp fn fp = Ok (prec, recal).
Proof.
  intros H. destruct (precision_recall_values A tp fn fp H)
    as (prec & recal & E & _).
  now exists prec, recal.
Qed.



(** X28.  The block raises exactly when the task has neither a true positive nor
    a false negative, and then it raises [ZeroDivisionError]. *)
Theorem precision_recall_raises_iff (A : Type) (tp fn fp : list A) :
  (exists e, EvalAll.precision_recall tp fn fp = Raise e)
  <-> tp = [] /\ fn = [].
Proof.
  split.
  - intros [e H].
    destruct tp as [|x tp']; [destruct fn as [|y fn']; [auto|]|].
    + destruct (precision_recall_total A [] (y :: fn') fp) as (p & r & E);
        [right; discriminate|congruence].
    + destruct (precision_recall_total A (x :: tp') fn fp) as (p & r & E);
        [left; discriminate|congruence].
  - intros [-> ->]. exists ZeroDivisionError.
    unfold EvalAll.precision_recall. simpl.
    destruct (negb (EvalAll.len fp =? 0)%Z); simpl; [|reflexivity].
    unfold EvalAll.truediv. destruct (EvalAll.len fp =? 0)%Z; reflexivity.
Qed.

(** ** Entries the loaders pass over, and values they reject *)

Lemma for_each_skip_falsy {T : Type} (init : json -> result T)
  (items : list json) (acc : list T) :
  for_each (filter truthy items)
    (fun x acc => if truthy x then o <- init x ;; Ok (acc ++ [o]) else Ok acc)
    acc
  = for_each items
      (fun x acc => if truthy x then o <- init x ;; Ok (acc ++ [o]) else Ok acc)
      acc.
Proof.
  revert acc. induction items as [|x rest IH]; intros acc; [reflexivity|].
  cbn [filter]. destruct (truthy x) eqn:T1; cbn [for_each]; rewrite T1.
  - apply bind_ext. exact IH.
  - cbn [bind]. apply IH.
Qed.

(** X3.  Every loop that loads a list of sub-records passes over the falsy
    entries (null, an empty record, an empty string, zero, false, an empty
    list): removing them from the input list changes nothing, for links,
    rows and datasets alike. *)
Theorem loaders_skip_falsy (entries : list json) :
  (forall links,
     Link.append_links (JArr (filter truthy entries)) links
     = Link.append_links (JArr entries) links)
  /\ (forall rows,
        SotaRow.append_rows (JArr (filter truthy entries)) rows
        = SotaRow.append_rows (JArr entries) rows)
  /\ (forall datasets,
        Dataset.append_datasets (JArr (filter truthy entries)) datasets
        = Dataset.append_datasets (JArr entries) datasets).
Proof.
  split; [|split]; intros acc.
  - apply (for_each_skip_falsy Link.__init__).
  - apply (for_each_skip_falsy SotaRow.__init__).
  - apply (for_each_skip_falsy (fun x => Dataset.__init__ x None)).
Qed.

(** X4.  [SotaRow], [Dataset] and [Task] reject with [TypeError] every value
    that is not a record: null, a boolean, a number, a string or a list. *)
Theorem non_record_rejected (d : json) (parent : option json) :
  (forall kvs, d <> JObj kvs) ->
  SotaRow.__init__ d = Raise TypeError
  /\ Dataset.__init__ d parent = Raise TypeError
  /\ Task.__init__ d parent = Raise TypeError.
Proof.
  intros Hnot.
  destruct d as [|b|n|f|s|l|kvs]; try (repeat split; reflexivity).
  - split; [reflexivity|]. split; [apply Dataset_init_str|reflexivity].
  - split; [reflexivity|]. split; [|reflexivity].
    simpl. destruct (existsb (is_str "subdataset") l); reflexivity.
  - now destruct (Hnot kvs).
Qed.

Lemma non_record_rejected_witness :
  SotaRow.__init__ (JArr [JStr "model_name"]) = Raise TypeError
  /\ Dataset.__init__ (JArr [JStr "model_name"]) None = Raise TypeError
  /\ Task.__init__ (JArr [JStr "model_name"]) None = Raise TypeError.
Proof.
  apply non_record_rejected. discriminate.
Defined.
